(** * CFO assistant: routing, dispatch and retrieval core

    A shallow embedding of [src/query_router.py], [src/orchestrator.py],
    [src/rag_agent.py], [src/sql_agent.py] and [src/web_agent.py].

    Python strings are modelled as [string]; the model covers ASCII text,
    on which [str.lower], [str.upper] and [str.strip] are the mappings
    written out below.  Exceptions are values of [exn]; a method that can
    raise returns an [outcome].  The hosted services the program talks to
    (language model gateway, embedding model, text splitter, vector store
    ranking, relational store, web search) are the fields of the class
    [Externals]; every definition and theorem is parametric in them. *)

From Stdlib Require Import String Ascii List Bool Arith Lia.
From stdpp Require Import base option list gmap strings pretty.
Import ListNotations.

Local Open Scope string_scope.
Local Open Scope list_scope.

(** ** Python string primitives (ASCII) *)

Module PyStr.

Definition nl : string := String (ascii_of_nat 10) EmptyString.

Definition is_upper (c : ascii) : bool :=
  let n := nat_of_ascii c in (65 <=? n)%nat && (n <=? 90)%nat.

Definition is_lower (c : ascii) : bool :=
  let n := nat_of_ascii c in (97 <=? n)%nat && (n <=? 122)%nat.

Definition lower_char (c : ascii) : ascii :=
  if is_upper c then ascii_of_nat (nat_of_ascii c + 32) else c.

Definition upper_char (c : ascii) : ascii :=
  if is_lower c then ascii_of_nat (nat_of_ascii c - 32) else c.

Fixpoint map_chars (f : ascii -> ascii) (s : string) : string :=
  match s with
  | EmptyString => EmptyString
  | String c s' => String (f c) (map_chars f s')
  end.

(** [s.lower()] and [s.upper()]. *)
Definition lower : string -> string := map_chars lower_char.
Definition upper : string -> string := map_chars upper_char.

(** The characters [str.strip()] removes: tab, LF, VT, FF, CR, the
    separators 28-31 and the space. *)
Definition is_space (c : ascii) : bool :=
  let n := nat_of_ascii c in
  ((9 <=? n)%nat && (n <=? 13)%nat) || ((28 <=? n)%nat && (n <=? 32)%nat).

Fixpoint lstrip_by (p : ascii -> bool) (s : string) : string :=
  match s with
  | EmptyString => EmptyString
  | String c s' => if p c then lstrip_by p s' else s
  end.

Fixpoint rstrip_by (p : ascii -> bool) (s : string) : string :=
  match s with
  | EmptyString => EmptyString
  | String c s' =>
      match rstrip_by p s' with
      | EmptyString => if p c then EmptyString else String c EmptyString
      | r => String c r
      end
  end.

(** [s.strip()]. *)
Definition strip (s : string) : string := rstrip_by is_space (lstrip_by is_space s).

(** [s.startswith(p)]. *)
Definition startswith (s p : string) : bool := String.prefix p s.

(** [k in s]: [k] occurs in [s] as a contiguous substring. *)
Fixpoint contains (k s : string) : bool :=
  String.prefix k s ||
  match s with
  | EmptyString => false
  | String _ s' => contains k s'
  end.

(** The declarative reading of [k in s]. *)
Definition occurs_in (k s : string) : Prop :=
  exists pre post : string, s = pre +:+ k +:+ post.

(** [sep.join(parts)]. *)
Fixpoint join (sep : string) (parts : list string) : string :=
  match parts with
  | [] => ""
  | [p] => p
  | p :: rest => p +:+ sep +:+ join sep rest
  end.

(** [s.split(sep, 1)]: cut at the first occurrence of [sep] (non-empty). *)
Fixpoint split_once (sep s : string) : option (string * string) :=
  if String.prefix sep s then Some ("", String.substring (String.length sep) (String.length s - String.length sep) s)
  else match s with
       | EmptyString => None
       | String c s' =>
           match split_once sep s' with
           | Some (a, b) => Some (String c a, b)
           | None => None
           end
       end.

(** [s.rsplit(sep, 1)[0]]: the text before the last occurrence of [sep],
    or all of [s] when [sep] does not occur. *)
Fixpoint rsplit_once_head (sep s : string) : string :=
  match s with
  | EmptyString => EmptyString
  | String c s' =>
      if contains sep s' then String c (rsplit_once_head sep s')
      else if String.prefix sep s then EmptyString
      else s
  end.

(** [s[n:]]. *)
Fixpoint drop (n : nat) (s : string) : string :=
  match n, s with
  | O, _ => s
  | S _, EmptyString => EmptyString
  | S n', String _ s' => drop n' s'
  end.

(** [s * n]. *)
Fixpoint repeat_str (s : string) (n : nat) : string :=
  match n with
  | O => ""
  | S n' => s +:+ repeat_str s n'
  end.

(** [c in s] for a character. *)
Fixpoint has_char (c : ascii) (s : string) : bool :=
  match s with
  | EmptyString => false
  | String x s' => Ascii.eqb c x || has_char c s'
  end.

(** [s.endswith(p)], read declaratively. *)
Definition ends_with (s p : string) : Prop := exists pre : string, s = pre +:+ p.

End PyStr.

(** ** Exceptions and the state/exception monad *)

(** A raised Python exception: its class name and [str(e)]. *)
Record exn := Exn { exn_class : string; exn_str : string }.

Inductive outcome (A : Type) : Type :=
| Returned (a : A)
| Raised (e : exn).
Arguments Returned {A} a.
Arguments Raised {A} e.

Definition M (S A : Type) : Type := S -> outcome A * S.

Definition ret {S A} (a : A) : M S A := fun s => (Returned a, s).

Definition raise {S A} (e : exn) : M S A := fun s => (Raised e, s).

Definition bind {S A B} (m : M S A) (k : A -> M S B) : M S B :=
  fun s =>
    match m s with
    | (Returned a, s') => k a s'
    | (Raised e, s') => (Raised e, s')
    end.

(** [try: m  except Exception as e: h e].  State changes made before the
    exception was raised are kept, as in Python. *)
Definition try_except {S A} (m : M S A) (h : exn -> M S A) : M S A :=
  fun s =>
    match m s with
    | (Returned a, s') => (Returned a, s')
    | (Raised e, s') => h e s'
    end.

Definition get {S} : M S S := fun s => (Returned s, s).
Definition modify {S} (f : S -> S) : M S unit := fun s => (Returned tt, f s).

Declare Scope py_scope.
Delimit Scope py_scope with py.
Notation "x <- m ;; k" := (bind m (fun x => k))
  (at level 100, m at next level, right associativity) : py_scope.
Notation "m ;;; k" := (bind m (fun _ => k))
  (at level 100, right associativity) : py_scope.

Local Open Scope py_scope.

(** ** Data model *)

(** The text sent to the language model gateway.  Each constructor stands
    for one f-string template of the source, applied to its holes. *)
Inductive prompt :=
| RouterPrompt (query : string)
| SqlGenerationPrompt (schema question : string)
| SqlNarrationPrompt (question df_string : string)
| PolicyAnswerPrompt (context question : string)
| WebAnswerPrompt (context question : string)
| CondenseQuestionPrompt (chat_history question : string)
| StuffDocumentsPrompt (context question : string).

(** A policy file [<stem>.txt] of the documents directory. *)
Record document := Document { doc_stem : string; doc_text : string }.

Definition doc_name (d : document) : string := doc_stem d +:+ ".txt".

(** A hit of the web search provider: a dict whose keys may be missing. *)
Record search_hit := SearchHit {
  hit_title : option string;
  hit_url : option string;
  hit_content : option string
}.

(** One message of the conversation buffer. *)
Inductive message :=
| HumanMessage (content : string)
| AIMessage (content : string).

(** What the program does to the outside, recorded so that statements
    about which calls are made can be written down.  The trace is ghost
    state: no code reads it. *)
Inductive event :=
| EvGenerate (p : prompt)
| EvEmbed (texts : list string)
| EvInsert (ids : list string)
| EvRoute (question : string)
| EvHandler (agent_type : string).

Definition is_generate (e : event) : bool :=
  match e with EvGenerate _ => true | _ => false end.
Definition is_embed (e : event) : bool :=
  match e with EvEmbed _ => true | _ => false end.
Definition is_insert (e : event) : bool :=
  match e with EvInsert _ => true | _ => false end.
Definition is_route (e : event) : bool :=
  match e with EvRoute _ => true | _ => false end.
Definition is_handler (e : event) : bool :=
  match e with EvHandler _ => true | _ => false end.

(** How many events of a kind a trace holds. *)
Definition calls (kind : event -> bool) (t : list event) : nat :=
  length (List.filter kind t).

(** What [collection.add] does with an id the collection already holds:
    current releases of the vector store skip the record, older ones
    raise. *)
Inductive existing_id_policy := SkipExisting | RejectExisting.

(** ** External collaborators *)

Class Externals := {
  World : Type;
  Embedding : Type;
  DataFrame : Type;
  (** [client.messages.create(...)] followed by [.content[0].text] *)
  messages_create : prompt -> World -> outcome string * World;
  (** [SentenceTransformer.encode] on one text *)
  encode : string -> Embedding;
  (** [RecursiveCharacterTextSplitter.split_text] *)
  split_text : string -> list string;
  (** [closer q a b]: [a] is at least as near to the query [q] as [b] *)
  closer : Embedding -> Embedding -> Embedding -> bool;
  on_existing_id : existing_id_policy;
  (** [pd.read_sql_query] on the financial database *)
  read_sql_query : string -> World -> outcome DataFrame * World;
  df_empty : DataFrame -> bool;
  df_to_string : DataFrame -> string;
  (** [tavily.search(...)] followed by [.get('results', [])] *)
  tavily_search : string -> nat -> World -> outcome (list search_hit) * World
}.

Section Program.
Context `{Ext : Externals}.

(** A record of the similarity index, keyed by chunk id. *)
Record entry := Entry {
  entry_document : string;
  entry_embedding : Embedding;
  entry_source : string;
  entry_chunk_id : nat
}.

(** The assistant and what it can reach. *)
Record State := MkState {
  world : World;
  (** RAGAgent: [self.collection], [self.conversation_chain is not None],
      [self.memory] (the buffer shared with the chain) *)
  collection : gmap string entry;
  conversation_chain : bool;
  memory : option (list message);
  (** the [*.txt] files under [Config.DOCUMENTS_DIR], if it exists *)
  documents_dir : option (list document);
  (** WebAgent: [self.search_enabled] *)
  search_enabled : bool;
  (** SQLAgent: [self.schema] *)
  schema : string;
  trace : list event
}.

Definition set_world (w : World) (st : State) : State :=
  MkState w (collection st) (conversation_chain st) (memory st)
          (documents_dir st) (search_enabled st) (schema st) (trace st).

Definition set_collection (c : gmap string entry) (st : State) : State :=
  MkState (world st) c (conversation_chain st) (memory st)
          (documents_dir st) (search_enabled st) (schema st) (trace st).

Definition set_conversation_chain (b : bool) (st : State) : State :=
  MkState (world st) (collection st) b (memory st)
          (documents_dir st) (search_enabled st) (schema st) (trace st).

Definition set_memory (m : option (list message)) (st : State) : State :=
  MkState (world st) (collection st) (conversation_chain st) m
          (documents_dir st) (search_enabled st) (schema st) (trace st).

Definition log (e : event) (st : State) : State :=
  MkState (world st) (collection st) (conversation_chain st) (memory st)
          (documents_dir st) (search_enabled st) (schema st) (trace st ++ [e]).

Definition emit (e : event) : M State unit := modify (log e).

(** Run an external call against the world. *)
Definition external {A} (f : World -> outcome A * World) : M State A :=
  fun st => let '(r, w) := f (world st) in (r, set_world w st).

(** One request to the language model gateway. *)
Definition generate (p : prompt) : M State string :=
  emit (EvGenerate p) ;;; external (messages_create p).

End Program.

(** ** query_router.py *)

Module QueryRouter.
Section WithExternals.
Context `{Ext : Externals}.

Definition sql_keywords : list string :=
  ["show"; "list"; "compare"; "average"; "sum"; "count"; "revenue"; "profit";
   "margin"; "companies"; "ratio"; "financial"; "metric"].

Definition policy_keywords : list string :=
  ["policy"; "approval"; "procedure"; "guideline"; "process";
   "requirement"; "should we"; "how to"; "recognize"].

(** [any(keyword in query_lower for keyword in keywords)] *)
Definition any_keyword_in (keywords : list string) (query_lower : string) : bool :=
  existsb (fun keyword => PyStr.contains keyword query_lower) keywords.

(** The default routing logic: the body of the [if route not in ...]
    block of [route]. *)
Definition keyword_fallback (query : string) : string :=
  let query_lower := PyStr.lower query in
  if any_keyword_in sql_keywords query_lower then "SQL"
  else if any_keyword_in policy_keywords query_lower then "RAG"
  else "WEB".

(** The lower-cased query holds one of [keywords] as a substring. *)
Definition mentions (keywords : list string) (query : string) : Prop :=
  exists keyword, In keyword keywords /\ PyStr.occurs_in keyword (PyStr.lower query).

Definition route (query : string) : M State string :=
  text <- generate (RouterPrompt query) ;;
  let route := PyStr.upper (PyStr.strip text) in
  if negb (bool_decide (route ∈ ["SQL"; "RAG"; "WEB"]))
  then ret (keyword_fallback query)
  else ret route.

End WithExternals.
End QueryRouter.

(** ** sql_agent.py *)

Module SQLAgent.
Section WithExternals.
Context `{Ext : Externals}.

(** The dict returned by [query]. *)
Record result := Result {
  answer : string;
  sql_query : option string;
  dataframe : option DataFrame;
  error : option string
}.

Definition is_semicolon (c : ascii) : bool := Ascii.eqb c ";"%char.

Definition _generate_sql (question : string) : M State string :=
  st <- get ;;
  text <- generate (SqlGenerationPrompt (schema st) question) ;;
  let sql_query := PyStr.strip text in
  sql_query <-
    (if PyStr.startswith sql_query "```" then
       match PyStr.split_once PyStr.nl sql_query with
       | Some (_, rest) => ret (PyStr.rsplit_once_head "```" rest)
       | None => raise (Exn "IndexError" "list index out of range")
       end
     else ret sql_query) ;;
  ret (PyStr.rstrip_by is_semicolon (PyStr.strip sql_query)).

Definition _execute_query (sql_query : string) : M State DataFrame :=
  try_except (external (read_sql_query sql_query))
    (fun e => raise (Exn "Exception" ("Query execution error: " +:+ exn_str e))).

Definition _format_results (df : DataFrame) (question : string) : M State string :=
  if df_empty df then ret "No results found for your query."
  else generate (SqlNarrationPrompt question (df_to_string df)).

Definition query (question : string) : M State result :=
  try_except
    (sql_query <- _generate_sql question ;;
     df <- _execute_query sql_query ;;
     answer <- _format_results df question ;;
     ret (Result answer (Some sql_query) (Some df) None))
    (fun e =>
       ret (Result ("I encountered an error: " +:+ exn_str e) None None
                   (Some (exn_str e)))).

(** What [query] can return: a success without error, or the apology
    built from the exception text together with that text as error. *)
Definition well_formed (r : result) : Prop :=
  error r = None \/
  exists msg, answer r = "I encountered an error: " +:+ msg /\ error r = Some msg.

(** A table of the database as [_get_schema] reads it: its name and, for
    each row of [PRAGMA table_info], the column name and type. *)
Record table_info := TableInfo {
  table_name : string;
  table_columns : list (string * string)
}.

(** [_get_schema], on the tables the two cursor queries return. *)
Definition _get_schema (tables : list table_info) : string :=
  PyStr.join PyStr.nl
    (map (fun table =>
            let col_info :=
              PyStr.join ", "
                (map (fun col => fst col +:+ " (" +:+ snd col +:+ ")") (table_columns table)) in
            PyStr.nl +:+ "Table: " +:+ table_name table +:+ PyStr.nl +:+ "Columns: " +:+ col_info)
         tables).

End WithExternals.
End SQLAgent.

(** ** web_agent.py *)

Module WebAgent.
Section WithExternals.
Context `{Ext : Externals}.

(** One element of [sources]: [{"title": ..., "url": ...}]. *)
Record source := Source { title : option string; url : option string }.

(** The dict returned by [query]. *)
Record result := Result {
  answer : string;
  sources : list source;
  search_results : list search_hit;
  error : option string
}.

Definition not_configured_answer : string :=
  "Web search is not configured. Please add TAVILY_API_KEY to your .env file. You can get a free API key at https://tavily.com".

Definition nothing_found_answer : string :=
  "I couldn't find any relevant information on the web for your query.".

Definition _search_web (query : string) (max_results : nat) : M State (list search_hit) :=
  st <- get ;;
  if negb (search_enabled st) then ret []
  else try_except (external (tavily_search query max_results))
         (fun e => ret []).

Definition _format_search_results (results : list search_hit) : string :=
  match results with
  | [] => "No search results found."
  | _ =>
      PyStr.join PyStr.nl
        (imap (fun i r =>
                 "[" +:+ pretty (S i) +:+ "] " +:+ default "No title" (hit_title r) +:+ PyStr.nl +:+
                 "URL: " +:+ default "N/A" (hit_url r) +:+ PyStr.nl +:+
                 "Content: " +:+ default "No content" (hit_content r) +:+ PyStr.nl)
              results)
  end.

Definition query (question : string) : M State result :=
  st <- get ;;
  if negb (search_enabled st) then
    ret (Result not_configured_answer [] [] (Some "Web search not configured"))
  else
    try_except
      (search_results <- _search_web question 5 ;;
       match search_results with
       | [] => ret (Result nothing_found_answer [] [] None)
       | _ =>
           let context := _format_search_results search_results in
           answer <- generate (WebAnswerPrompt context question) ;;
           let sources := map (fun r => Source (hit_title r) (hit_url r)) search_results in
           ret (Result answer sources search_results None)
       end)
      (fun e =>
         ret (Result ("I encountered an error while searching: " +:+ exn_str e) [] []
                     (Some (exn_str e)))).

(** The dict returned when no search provider is configured. *)
Definition not_configured_result : result :=
  Result not_configured_answer [] [] (Some "Web search not configured").

(** What [query] can return when search is enabled. *)
Definition configured_result (r : result) : Prop :=
  error r = None \/
  exists msg, answer r = "I encountered an error while searching: " +:+ msg /\
              error r = Some msg.

End WithExternals.
End WebAgent.

(** ** rag_agent.py *)

Module RAGAgent.
Section WithExternals.
Context `{Ext : Externals}.

(** A retrieved passage as the conversational chain returns it. *)
Record source_document := SourceDocument {
  page_content : string;
  metadata_source : string
}.

(** The dict returned by [query]. *)
Record result := Result {
  answer : string;
  sources : list string;
  source_documents : list source_document;
  error : option string
}.

Definition no_information_answer : string :=
  "I couldn't find any relevant information in the policy documents.".

(** *** The vector store *)

(** [collection.count()] *)
Definition count (c : gmap string entry) : nat := size c.

Fixpoint insert_nearest (q : Embedding) (x : string * entry)
         (l : list (string * entry)) : list (string * entry) :=
  match l with
  | [] => [x]
  | y :: l' =>
      if closer q (entry_embedding (snd x)) (entry_embedding (snd y))
      then x :: l
      else y :: insert_nearest q x l'
  end.

Definition nearest_first (q : Embedding) (l : list (string * entry)) : list (string * entry) :=
  foldr (insert_nearest q) [] l.

(** [collection.query(query_embeddings=[q], n_results=n)]: the [n]
    records nearest to [q], fewer when the collection is smaller. *)
Definition collection_query (c : gmap string entry) (q : Embedding) (n_results : nat)
  : list (string * entry) :=
  take n_results (nearest_first q (map_to_list c)).

(** [collection.add(documents, embeddings, metadatas, ids)] as one batch.
    An empty batch and an id repeated inside the batch are refused; an
    id the collection already holds is skipped or refused
    ([on_existing_id]); an existing record is never overwritten and
    never removed. *)
Definition collection_add (batch : list (string * entry)) : M State unit :=
  emit (EvInsert (batch.*1)) ;;;
  st <- get ;;
  match batch with
  | [] => raise (Exn "ValueError" "Expected IDs to be a non-empty list")
  | _ =>
      if negb (bool_decide (NoDup (batch.*1)))
      then raise (Exn "DuplicateIDError" "Expected IDs to be unique")
      else
        match on_existing_id with
        | RejectExisting =>
            if bool_decide (Exists (fun i => is_Some (collection st !! i)) (batch.*1))
            then raise (Exn "IDAlreadyExistsError" "ID already exists")
            else modify (set_collection (collection st ∪ list_to_map batch))
        | SkipExisting =>
            modify (set_collection (collection st ∪ list_to_map batch))
        end
  end.

(** *** Ingestion *)

(** The rows one document contributes: chunk text, metadata
    ([source], [chunk_id]) and id. *)
Definition document_rows (d : document) : list (string * (string * nat) * string) :=
  imap (fun i chunk => (chunk, (doc_name d, i), doc_stem d +:+ "_chunk_" +:+ pretty i))
       (split_text (doc_text d)).

Definition ingest_documents (force_reload : bool) : M State unit :=
  st <- get ;;
  if negb force_reload && (0 <? count (collection st))%nat then ret tt
  else
    match documents_dir st with
    | None => raise (Exn "FileNotFoundError" "Documents directory not found")
    | Some docs =>
        let rows := concat (map document_rows docs) in
        let all_chunks := map (fun r => fst (fst r)) rows in
        let all_metadatas := map (fun r => snd (fst r)) rows in
        let all_ids := map snd rows in
        emit (EvEmbed all_chunks) ;;;
        let embeddings := map encode all_chunks in
        collection_add
          (zip_with (fun id r => (id, r)) all_ids
             (zip_with (fun ce m => Entry (fst ce) (snd ce) (fst m) (snd m))
                (zip all_chunks embeddings) all_metadatas))
    end.

(** The state [ingest_documents] leaves behind, whether it returned or
    raised. *)
Definition ingest_documents_after (force_reload : bool) (st : State) : State :=
  snd (ingest_documents force_reload st).

(** *** Stateless retrieval *)

Definition _stateless_query (question : string) : M State result :=
  emit (EvEmbed [question]) ;;;
  let query_embedding := encode question in
  st <- get ;;
  let results := collection_query (collection st) query_embedding 5 in
  match results with
  | [] => ret (Result no_information_answer [] [] None)
  | _ =>
      let context :=
        PyStr.join (PyStr.nl +:+ PyStr.nl +:+ "---" +:+ PyStr.nl +:+ PyStr.nl)
          (map (fun r => "From " +:+ entry_source (snd r) +:+ ":" +:+ PyStr.nl +:+
                         entry_document (snd r)) results) in
      text <- generate (PolicyAnswerPrompt context question) ;;
      let sources := remove_dups (map (fun r => entry_source (snd r)) results) in
      ret (Result text sources [] None)
  end.

(** *** The conversational chain *)

Definition _initialize_conversation_chain : M State unit :=
  st <- get ;;
  if conversation_chain st then ret tt
  else modify (fun st => set_conversation_chain true (set_memory (Some []) st)).

(** The chat history rendered for the prompts; messages with empty
    content are left out. *)
Definition get_chat_history (messages : list message) : string :=
  foldr (fun m acc =>
           match m with
           | HumanMessage "" | AIMessage "" => acc
           | HumanMessage c => PyStr.nl +:+ "Human: " +:+ c +:+ acc
           | AIMessage c => PyStr.nl +:+ "Assistant: " +:+ c +:+ acc
           end) "" messages.

(** [self.conversation_chain({"question": question})]: the library's
    conversational retrieval chain as [_initialize_conversation_chain]
    configures it (retriever with k = 5, buffer memory, source documents
    returned, no canned reply for an empty retrieval).  It rephrases the
    question when the buffer is non-empty, retrieves, asks the model for
    an answer over the retrieved passages, and then saves the turn. *)
Definition conversation_chain_call (question : string)
  : M State (string * list source_document) :=
  st <- get ;;
  let chat_history_str := get_chat_history (default [] (memory st)) in
  new_question <-
    (match chat_history_str with
     | "" => ret question
     | _ => generate (CondenseQuestionPrompt chat_history_str question)
     end) ;;
  emit (EvEmbed [new_question]) ;;;
  st <- get ;;
  let docs :=
    map (fun r => SourceDocument (entry_document (snd r)) (entry_source (snd r)))
        (collection_query (collection st) (encode new_question) 5) in
  answer <-
    generate (StuffDocumentsPrompt
                (PyStr.join (PyStr.nl +:+ PyStr.nl) (map page_content docs))
                new_question) ;;
  modify (fun st =>
    set_memory (Some (default [] (memory st) ++ [HumanMessage question; AIMessage answer])) st) ;;;
  ret (answer, docs).

Definition query (question : string) (use_memory : bool) : M State result :=
  try_except
    (if use_memory then
       st <- get ;;
       (if negb (conversation_chain st) then _initialize_conversation_chain else ret tt) ;;;
       chain_result <- conversation_chain_call question ;;
       let sources := remove_dups (map metadata_source (snd chain_result)) in
       ret (Result (fst chain_result) sources (snd chain_result) None)
     else _stateless_query question)
    (fun e =>
       ret (Result ("I encountered an error: " +:+ exn_str e) [] [] (Some (exn_str e)))).

Definition clear_memory : M State unit :=
  st <- get ;;
  match memory st with
  | Some _ => modify (set_memory (Some []))
  | None => ret tt
  end.

Definition get_conversation_history : M State (list message) :=
  st <- get ;;
  match memory st with
  | Some messages => ret messages
  | None => ret []
  end.

(** What [query] can return: a success without error, or the apology
    built from the exception text together with that text as error. *)
Definition well_formed (r : result) : Prop :=
  error r = None \/
  exists msg, answer r = "I encountered an error: " +:+ msg /\ error r = Some msg.

(** The records one document contributes to the batch, and the batch
    [ingest_documents] builds from the documents. *)
Definition document_entries (d : document) : list (string * entry) :=
  imap (fun i chunk =>
          (doc_stem d +:+ "_chunk_" +:+ pretty i,
           Entry chunk (encode chunk) (doc_name d) i))
       (split_text (doc_text d)).

Definition ingest_batch (docs : list document) : list (string * entry) :=
  concat (map document_entries docs).

(** The invariant between the two fields [_initialize_conversation_chain]
    sets together: the chain exists exactly when its memory does. *)
Definition chain_has_memory (st : State) : Prop :=
  conversation_chain st = true <-> is_Some (memory st).

End WithExternals.
End RAGAgent.

(** ** orchestrator.py *)

Module CFOAssistant.
Section WithExternals.
Context `{Ext : Externals}.

(** The [metadata] dict of the envelope, one shape per branch. *)
Inductive metadata :=
| SqlMetadata (sql_query : option string) (dataframe : option DataFrame)
| RagMetadata (sources : list string) (chunks : list RAGAgent.source_document)
| WebMetadata (sources : list WebAgent.source) (search_results : list search_hit)
| EmptyMetadata.

(** The dict returned by [query]. *)
Record result := Result {
  answer : string;
  agent_used : string;
  meta : metadata;
  error : option string
}.

Definition unknown_agent_result : result :=
  Result "I couldn't determine how to handle your query. Please try rephrasing."
         "None" EmptyMetadata (Some "Unknown agent type").

(** Python truthiness of [force_agent]: [None] and the empty string are
    false. *)
Definition truthy (force_agent : option string) : bool :=
  match force_agent with
  | None | Some "" => false
  | Some _ => true
  end.

(** The [if agent_type == ...] chain of [query].  The retrieval agent is
    called with its default [use_memory=True]; its dict has no key
    [chunks], so [result.get('chunks', [])] is the empty list. *)
Definition dispatch (agent_type question : string) : M State result :=
  if String.eqb agent_type "SQL" then
    emit (EvHandler "SQL") ;;;
    r <- SQLAgent.query question ;;
    ret (Result (SQLAgent.answer r) "SQL Database"
                (SqlMetadata (SQLAgent.sql_query r) (SQLAgent.dataframe r))
                (SQLAgent.error r))
  else if String.eqb agent_type "RAG" then
    emit (EvHandler "RAG") ;;;
    r <- RAGAgent.query question true ;;
    ret (Result (RAGAgent.answer r) "Policy Documents (RAG)"
                (RagMetadata (RAGAgent.sources r) [])
                (RAGAgent.error r))
  else if String.eqb agent_type "WEB" then
    emit (EvHandler "WEB") ;;;
    r <- WebAgent.query question ;;
    ret (Result (WebAgent.answer r) "Web Search"
                (WebMetadata (WebAgent.sources r) (WebAgent.search_results r))
                (WebAgent.error r))
  else ret unknown_agent_result.

(** The first step of [query]: "determine which agent to use". *)
Definition resolve_agent_type (question : string) (force_agent : option string)
  : M State string :=
  if truthy force_agent then ret (PyStr.upper (default "" force_agent))
  else emit (EvRoute question) ;;; QueryRouter.route question.

(** [use_memory] is accepted and not used, as in the source. *)
Definition query (question : string) (force_agent : option string) (use_memory : bool)
  : M State result :=
  agent_type <- resolve_agent_type question force_agent ;;
  dispatch agent_type question.

(** The [error] entry of the dict that the handler named by
    [agent_type] returns when [dispatch] runs it from [st]; [None] when
    [agent_type] names no handler. *)
Definition handler_error (agent_type question : string) (st : State)
  : option (option string) :=
  let st := log (EvHandler agent_type) st in
  if String.eqb agent_type "SQL" then
    match fst (SQLAgent.query question st) with
    | Returned r => Some (SQLAgent.error r)
    | Raised _ => None
    end
  else if String.eqb agent_type "RAG" then
    match fst (RAGAgent.query question true st) with
    | Returned r => Some (RAGAgent.error r)
    | Raised _ => None
    end
  else if String.eqb agent_type "WEB" then
    match fst (WebAgent.query question st) with
    | Returned r => Some (WebAgent.error r)
    | Raised _ => None
    end
  else None.

(** The events only the router produces: its invocation and its
    classification request. *)
Definition is_router_event (e : event) : bool :=
  match e with
  | EvRoute _ | EvGenerate (RouterPrompt _) => true
  | _ => false
  end.

(** [agent_type] is one of the three names [dispatch] knows. *)
Definition names_handler (agent_type : string) : Prop :=
  agent_type = "SQL" \/ agent_type = "RAG" \/ agent_type = "WEB".

(** *** The interactive loop

    [chat] writes to standard output; the state of a session is the
    assistant together with the lines [chat] itself has printed so far.
    The prompt of [input] and the progress lines that [query] and the
    agents print on the way ([Routing to: ...]) are not recorded. *)

Definition Console : Type := State * list string.

Definition lift {A} (m : M State A) : M Console A :=
  fun c => let '(r, st) := m (fst c) in (r, (st, snd c)).

Definition print (line : string) : M Console unit :=
  modify (fun c => (fst c, snd c ++ [line])).

Inductive control := Continue | Break.

Definition rule : string := PyStr.repeat_str "=" 60.

Definition banner : list string :=
  [PyStr.nl +:+ rule;
   "CFO AI ASSISTANT - Interactive Mode";
   rule;
   "Commands:";
   "  'quit' or 'exit' - Exit the assistant";
   "  'sql: <query>' - Force SQL agent";
   "  'rag: <query>' - Force RAG agent";
   "  'web: <query>' - Force web agent";
   rule +:+ PyStr.nl].

(** [result['metadata'].get('sql_query')] *)
Definition metadata_sql_query (m : metadata) : option string :=
  match m with
  | SqlMetadata sql_query _ => sql_query
  | _ => None
  end.

(** [', '.join(result['metadata']['sources'])] under the test
    [if result['metadata'].get('sources')]: [None] when the key is
    missing or the list is empty; the joined names for the retrieval
    agent; a [TypeError] for the web agent, whose sources are dicts. *)
Definition joined_sources (m : metadata) : M Console (option string) :=
  match m with
  | RagMetadata (src :: srcs) _ => ret (Some (PyStr.join ", " (src :: srcs)))
  | WebMetadata (_ :: _) _ =>
      raise (Exn "TypeError" "sequence item 0: expected str instance, dict found")
  | _ => ret None
  end.

Definition nonempty (o : option string) : option string :=
  match o with
  | Some "" | None => None
  | Some s => Some s
  end.

(** "Check for forced agent": the agent a command line forces, if any,
    and the question that is left. *)
Definition parse_command (user_input : string) : option string * string :=
  if PyStr.startswith user_input "sql:" then
    (Some "sql", PyStr.strip (PyStr.drop 4 user_input))
  else if PyStr.startswith user_input "rag:" then
    (Some "rag", PyStr.strip (PyStr.drop 4 user_input))
  else if PyStr.startswith user_input "web:" then
    (Some "web", PyStr.strip (PyStr.drop 4 user_input))
  else (None, user_input).

(** "Display result" and "show additional metadata". *)
Definition display_result (result : result) : M Console unit :=
  print (PyStr.nl +:+ "Agent: " +:+ agent_used result) ;;;
  print (PyStr.repeat_str "-" 60) ;;;
  print (answer result) ;;;
  match nonempty (metadata_sql_query (meta result)) with
  | Some sql_query => print (PyStr.nl +:+ "[SQL Query: " +:+ sql_query +:+ "]")
  | None => ret tt
  end ;;;
  sources <- joined_sources (meta result) ;;
  match sources with
  | Some names => print (PyStr.nl +:+ "[Sources: " +:+ names +:+ "]")
  | None => ret tt
  end ;;;
  match nonempty (error result) with
  | Some msg => print (PyStr.nl +:+ "⚠ Error: " +:+ msg)
  | None => ret tt
  end.

(** The body of the [try] block, from the line [input] returned. *)
Definition chat_body (line : string) : M Console control :=
  let user_input := PyStr.strip line in
  match user_input with
  | "" => ret Continue
  | _ =>
      if bool_decide (PyStr.lower user_input ∈ ["quit"; "exit"; "q"]) then
        print "Goodbye!" ;;; ret Break
      else
        let '(force_agent, user_input) := parse_command user_input in
        result <- lift (query user_input force_agent true) ;;
        display_result result ;;;
        ret Continue
  end.

(** The words that end the session. *)
Definition quit_words : list string := ["quit"; "exit"; "q"].

(** One pass through the [while True] loop.  [None] stands for a
    [KeyboardInterrupt] at the prompt. *)
Definition chat_iteration (line : option string) : M Console control :=
  match line with
  | None => print (PyStr.nl +:+ PyStr.nl +:+ "Goodbye!") ;;; ret Break
  | Some line =>
      try_except (chat_body line)
        (fun e => print (PyStr.nl +:+ "Error: " +:+ exn_str e) ;;; ret Continue)
  end.

Fixpoint chat_loop (lines : list (option string)) : M Console unit :=
  match lines with
  | [] => ret tt
  | line :: rest =>
      c <- chat_iteration line ;;
      match c with
      | Break => ret tt
      | Continue => chat_loop rest
      end
  end.

(** [chat], fed the lines the user types; the model stops when they run
    out, where the program would wait for more. *)
Definition chat (lines : list (option string)) : M Console unit :=
  foldr (fun line k => print line ;;; k) (ret tt) banner ;;;
  chat_loop lines.

End WithExternals.
End CFOAssistant.

(** ** Specification vocabulary *)

Section Vocabulary.
Context `{Ext : Externals}.

(** [m] never raises, and what it returns satisfies [Q]. *)
Definition returns_with {A} (Q : A -> Prop) (m : M State A) : Prop :=
  forall st, exists a st', m st = (Returned a, st') /\ Q a.

(** Whenever [m] returns, what it returns satisfies [Q]. *)
Definition post {A} (Q : A -> Prop) (m : M State A) : Prop :=
  forall st a st', m st = (Returned a, st') -> Q a.


End Vocabulary.

(** The events a handler produces on its own account: requests to the
    gateway, embedding batches and insertions. *)
Definition is_service_event (e : event) : bool :=
  is_generate e || is_embed e || is_insert e.

(** The service events that are a handler's own: a classification
    request belongs to the router. *)
Definition is_agent_event (e : event) : bool :=
  is_service_event e && negb (CFOAssistant.is_router_event e).

Section Frames.
Context `{Ext : Externals}.

(** [m] leaves the part [part] of the state as it found it, whether it
    returns or raises. *)
Definition keeps {A X} (part : State -> X) (m : M State A) : Prop :=
  forall st, part (snd (m st)) = part st.

(** The retrieval state: index, chain and memory. *)
Definition retrieval_state (st : State) : gmap string entry * bool * option (list message) :=
  (collection st, conversation_chain st, memory st).

(** The conversation so far, empty before the chain exists. *)
Definition history (st : State) : list message := default [] (memory st).

End Frames.

(** ** Stand-ins for the external collaborators

    Concrete services on which the program can be run: the gateway
    answers from a script, one reply per request, and is unreachable once
    the script is used up; a document is split into a single chunk. *)

Module Scripted.

Definition unreachable : exn := Exn "APIConnectionError" "Connection error.".

Definition gateway (p : prompt) (script : list (outcome string))
  : outcome string * list (outcome string) :=
  match script with
  | [] => (Raised unreachable, [])
  | reply :: rest => (reply, rest)
  end.

Definition distance (a b : nat) : nat := (a - b) + (b - a).

Definition externals (policy : existing_id_policy) : Externals := {|
  World := list (outcome string);
  Embedding := nat;
  DataFrame := list string;
  messages_create := gateway;
  encode := String.length;
  split_text := fun text => [text];
  closer := fun q a b => (distance a q <=? distance b q)%nat;
  on_existing_id := policy;
  read_sql_query := fun _ w => (Returned ["revenue"; "100"], w);
  df_empty := fun df => match df with [] => true | _ => false end;
  df_to_string := PyStr.join PyStr.nl;
  tavily_search := fun _ _ w => (Returned [], w)
|}.

(** A freshly constructed assistant: empty index, no chain yet. *)
Definition fresh (policy : existing_id_policy) (script : list (outcome string))
           (docs : option (list document)) (web : bool)
  : @State (externals policy) :=
  @MkState (externals policy) script ∅ false None docs web "" [].

(** An index left by an earlier ingestion of [policy.txt], and the
    documents directory after that file was rewritten. *)
Definition stale_index (policy : existing_id_policy)
  : gmap string (@entry (externals policy)) :=
  {["policy_chunk_0" := @Entry (externals policy) "old text" 8 "policy.txt" 0]}.

Definition rewritten_documents : list document := [Document "policy" "new text"].

Definition loaded (policy : existing_id_policy) : @State (externals policy) :=
  set_collection (stale_index policy) (fresh policy [] (Some rewritten_documents) false).

(** The same services with a relational store and a search provider
    that answer as told. *)
Definition configurable (policy : existing_id_policy)
           (db : outcome (list string)) (hits : outcome (list search_hit)) : Externals := {|
  World := list (outcome string);
  Embedding := nat;
  DataFrame := list string;
  messages_create := gateway;
  encode := String.length;
  split_text := fun text => [text];
  closer := fun q a b => (distance a q <=? distance b q)%nat;
  on_existing_id := policy;
  read_sql_query := fun _ w => (db, w);
  df_empty := fun df => match df with [] => true | _ => false end;
  df_to_string := PyStr.join PyStr.nl;
  tavily_search := fun _ _ w => (hits, w)
|}.

Definition session (policy : existing_id_policy)
           (db : outcome (list string)) (hits : outcome (list search_hit))
           (script : list (outcome string)) (docs : option (list document)) (web : bool)
  : @State (configurable policy db hits) :=
  @MkState (configurable policy db hits) script ∅ false None docs web "" [].

Definition db_down : outcome (list string) :=
  Raised (Exn "DatabaseError" "no such table: sales").

Definition one_hit : search_hit :=
  SearchHit (Some "CFO trends") (Some "https://example.com/cfo") None.

Definition two_documents : list document :=
  [Document "travel" "Book early."; Document "expenses" "Keep receipts."].

End Scripted.


(** * Properties *)

(** ** The state/exception monad *)

Module MonadFacts.
Section WithExternals.
Context `{Ext : Externals}.

Lemma bind_returned_inv {A B} (m : M State A) (k : A -> M State B)
      (st st' : State) (b : B) :
  bind m k st = (Returned b, st') ->
  exists a st1, m st = (Returned a, st1) /\ k a st1 = (Returned b, st').
Proof.
  unfold bind. destruct (m st) as [[a|e] st1]; [eauto | discriminate].
Qed.

Lemma post_ret {A} (Q : A -> Prop) (a : A) : Q a -> post Q (ret a).
Proof. intros HQ st a' st' H. unfold ret in H. congruence. Qed.

Lemma post_raise {A} (Q : A -> Prop) (e : exn) : post Q (raise e).
Proof. intros st a' st' H. unfold raise in H. discriminate. Qed.

Lemma post_bind {A B} (Q : B -> Prop) (m : M State A) (k : A -> M State B) :
  (forall a, post Q (k a)) -> post Q (bind m k).
Proof.
  intros Hk st b st' H. apply bind_returned_inv in H as (a & st1 & _ & H).
  exact (Hk a st1 b st' H).
Qed.

Lemma returns_with_ret {A} (Q : A -> Prop) (a : A) : Q a -> returns_with Q (ret a).
Proof. intros HQ st. exists a, st. split; [reflexivity | exact HQ]. Qed.

Lemma returns_with_bind {A B} (R : A -> Prop) (Q : B -> Prop)
      (m : M State A) (k : A -> M State B) :
  returns_with R m -> (forall a, R a -> returns_with Q (k a)) ->
  returns_with Q (bind m k).
Proof.
  intros Hm Hk st. destruct (Hm st) as (a & st1 & Hrun & Ha).
  destruct (Hk a Ha st1) as (b & st' & Hrun' & Hb).
  exists b, st'. unfold bind. rewrite Hrun. split; assumption.
Qed.

Lemma returns_with_try_except {A} (Q : A -> Prop) (m : M State A) (h : exn -> M State A) :
  post Q m -> (forall e, returns_with Q (h e)) -> returns_with Q (try_except m h).
Proof.
  intros Hm Hh st. unfold try_except. destruct (m st) as [[a|e] st1] eqn:Hrun.
  - exists a, st1. split; [reflexivity | exact (Hm st a st1 Hrun)].
  - apply Hh.
Qed.

Lemma returns_with_weaken {A} (Q Q' : A -> Prop) (m : M State A) :
  (forall a, Q a -> Q' a) -> returns_with Q m -> returns_with Q' m.
Proof.
  intros HQ Hm st. destruct (Hm st) as (a & st' & Hrun & Ha). eauto.
Qed.

(** *** Trace discipline *)












End WithExternals.



End MonadFacts.

(** ** Strings *)

Module PyStrFacts.
Import PyStr.

Lemma prefix_append (k s : string) :
  String.prefix k s = true <-> exists t, s = k +:+ t.
Proof.
  revert s. induction k as [|a k IH]; intros s.
  - split; [intros _; exists s; reflexivity | intros _; destruct s; reflexivity].
  - destruct s as [|b s]; simpl.
    + split; [discriminate | intros [t Ht]; discriminate].
    + destruct (ascii_dec a b) as [->|Hne].
      * split.
        -- intros H. apply IH in H as [t ->]. exists t. reflexivity.
        -- intros [t Ht]. apply IH. exists t. injection Ht as Ht. exact Ht.
      * split; [discriminate | intros [t Ht]; injection Ht as Ha _; congruence].
Qed.

Lemma contains_unfold (k s : string) :
  contains k s =
  String.prefix k s ||
  match s with EmptyString => false | String _ s' => contains k s' end.
Proof. destruct s; reflexivity. Qed.

Lemma contains_occurs_in (k s : string) :
  contains k s = true <-> occurs_in k s.
Proof.
  split.
  - induction s as [|c s IH]; rewrite contains_unfold, orb_true_iff; intros [H|H].
    + apply prefix_append in H as [t ->]. exists "", t. reflexivity.
    + discriminate.
    + apply prefix_append in H as [t ->]. exists "", t. reflexivity.
    + destruct (IH H) as (pre & post & ->). exists (String c pre), post. reflexivity.
  - intros (pre & post & ->). induction pre as [|c pre IH].
    + rewrite contains_unfold.
      assert (String.prefix k ("" +:+ k +:+ post) = true) as ->
        by (apply prefix_append; exists post; reflexivity).
      reflexivity.
    + change (String c pre +:+ k +:+ post) with (String c (pre +:+ k +:+ post)).
      rewrite contains_unfold, IH. apply orb_true_r.
Qed.

Lemma contains_not_occurs_in (k s : string) :
  contains k s = false <-> ~ occurs_in k s.
Proof.
  rewrite <- contains_occurs_in. destruct (contains k s); split; congruence.
Qed.

End PyStrFacts.

(** ** Router *)

Module QueryRouterFacts.
Section WithExternals.
Context `{Ext : Externals}.
Import QueryRouter.

Lemma any_keyword_in_mentions (keywords : list string) (query : string) :
  any_keyword_in keywords (PyStr.lower query) = true <-> mentions keywords query.
Proof.
  unfold any_keyword_in, mentions. rewrite existsb_exists.
  split; intros (k & Hin & Hk); exists k; split; auto;
    now apply PyStrFacts.contains_occurs_in.
Qed.

Lemma any_keyword_in_not_mentions (keywords : list string) (query : string) :
  any_keyword_in keywords (PyStr.lower query) = false <-> ~ mentions keywords query.
Proof.
  rewrite <- any_keyword_in_mentions.
  destruct (any_keyword_in keywords (PyStr.lower query)); split; congruence.
Qed.

(** C1. The keyword fallback checks the structured-data keywords first:
    a query whose lower-cased text holds one of them is classified SQL,
    whether or not it also holds a policy keyword; a query that holds
    none of them but a policy keyword is classified RAG; a query that
    holds neither is classified WEB. *)
Theorem keyword_fallback_priority (query : string) :
  (mentions sql_keywords query -> keyword_fallback query = "SQL") /\
  (~ mentions sql_keywords query -> mentions policy_keywords query ->
   keyword_fallback query = "RAG") /\
  (~ mentions sql_keywords query -> ~ mentions policy_keywords query ->
   keyword_fallback query = "WEB").
Proof.
  unfold keyword_fallback. repeat split.
  - intros H. apply any_keyword_in_mentions in H. now rewrite H.
  - intros Hs Hp. apply any_keyword_in_not_mentions in Hs.
    apply any_keyword_in_mentions in Hp. now rewrite Hs, Hp.
  - intros Hs Hp. apply any_keyword_in_not_mentions in Hs.
    apply any_keyword_in_not_mentions in Hp. now rewrite Hs, Hp.
Qed.

(** A recognised token is returned as it is. *)
Lemma route_recognized_token (query text : string) (st : State) (w : World) :
  messages_create (RouterPrompt query) (world st) = (Returned text, w) ->
  PyStr.upper (PyStr.strip text) ∈ ["SQL"; "RAG"; "WEB"] ->
  fst (route query st) = Returned (PyStr.upper (PyStr.strip text)).
Proof.
  intros Hcall Hin. unfold route, generate, emit, modify, external, bind, ret.
  simpl. rewrite Hcall. simpl. rewrite bool_decide_true by exact Hin. reflexivity.
Qed.

(** A token that is none of the three names sends the query to the
    keyword fallback. *)
Lemma route_unrecognized_token (query text : string) (st : State) (w : World) :
  messages_create (RouterPrompt query) (world st) = (Returned text, w) ->
  PyStr.upper (PyStr.strip text) ∉ ["SQL"; "RAG"; "WEB"] ->
  fst (route query st) = Returned (keyword_fallback query).
Proof.
  intros Hcall Hin. unfold route, generate, emit, modify, external, bind, ret.
  simpl. rewrite Hcall. simpl. rewrite bool_decide_false by exact Hin. reflexivity.
Qed.

(** C2, where the code departs from it.  [route] has no handler around
    the gateway call: when the call raises, [route] raises the same
    exception instead of running the keyword fallback, and the
    orchestrator's [query] without an override raises it in turn. *)
Theorem route_gateway_failure_propagates
        (query : string) (st : State) (e : exn) (w : World) :
  messages_create (RouterPrompt query) (world st) = (Raised e, w) ->
  fst (route query st) = Raised e /\
  forall use_memory, fst (CFOAssistant.query query None use_memory st) = Raised e.
Proof.
  intros Hcall. split;
    [| intros use_memory; unfold CFOAssistant.query, CFOAssistant.resolve_agent_type];
    unfold route, generate, emit, modify, external, bind, ret;
    simpl; rewrite Hcall; reflexivity.
Qed.

End WithExternals.
End QueryRouterFacts.


(** ** Retrieval agent *)

Module RAGAgentFacts.
Section WithExternals.
Context `{Ext : Externals}.
Import RAGAgent MonadFacts.

Lemma calls_app (kind : event -> bool) (t1 t2 : list event) :
  calls kind (t1 ++ t2) = calls kind t1 + calls kind t2.
Proof. unfold calls. rewrite List.filter_app, length_app. reflexivity. Qed.

(** [collection.add] either leaves the collection as it is or extends
    it by the records of the batch whose ids are new. *)
Lemma collection_add_collection (batch : list (string * entry)) (st : State) :
  collection (snd (collection_add batch st)) = collection st \/
  (fst (collection_add batch st) = Returned tt /\ batch <> [] /\
   collection (snd (collection_add batch st)) = collection st ∪ list_to_map batch).
Proof.
  unfold collection_add, emit, modify, get, bind, raise. simpl.
  destruct batch as [|b batch]; [left; reflexivity |].
  destruct (negb _); [left; reflexivity |].
  destruct on_existing_id.
  - right. simpl. repeat split. discriminate.
  - destruct (bool_decide _); [left; reflexivity |].
    right. simpl. repeat split. discriminate.
Qed.

Lemma collection_add_keeps_entries (batch : list (string * entry)) (st : State)
      (id : string) (e : entry) :
  collection st !! id = Some e ->
  collection (snd (collection_add batch st)) !! id = Some e.
Proof.
  intros Hid. destruct (collection_add_collection batch st) as [-> | (_ & _ & ->)].
  - exact Hid.
  - apply lookup_union_Some_l. exact Hid.
Qed.

Lemma ingest_documents_collection (force_reload : bool) (st : State) :
  collection (ingest_documents_after force_reload st) = collection st \/
  exists batch, batch <> [] /\
    collection (ingest_documents_after force_reload st) = collection st ∪ list_to_map batch.
Proof.
  unfold ingest_documents_after, ingest_documents, get, bind, ret. simpl.
  destruct (negb force_reload && _); [left; reflexivity |].
  destruct (documents_dir st) as [docs|]; [| left; reflexivity].
  unfold emit, modify. simpl.
  match goal with |- context [collection_add ?b ?s] =>
    destruct (collection_add_collection b s) as [H | (_ & Hne & H)];
    destruct (collection_add b s) as [r st'] end; simpl in *.
  - left. exact H.
  - right. eexists. split; [exact Hne | exact H].
Qed.

Lemma union_list_to_map_nonempty (c : gmap string entry) (batch : list (string * entry)) :
  batch <> [] -> (0 < size (c ∪ list_to_map batch))%nat.
Proof.
  intros Hne. destruct batch as [|[i e] batch]; [congruence |].
  assert (is_Some ((c ∪ list_to_map ((i, e) :: batch)) !! i)) as [x Hx].
  { apply lookup_union_is_Some. right. simpl. rewrite lookup_insert_eq. eauto. }
  destruct (decide (size (c ∪ list_to_map ((i, e) :: batch)) = 0)) as [H0|]; [| lia].
  apply map_size_empty_iff in H0. rewrite H0, lookup_empty in Hx. discriminate.
Qed.

(** What ingestion leaves in the index depends on the index and the
    documents only, and ingestion does not touch the documents. *)
Lemma ingest_documents_deterministic (force_reload : bool) (st1 st2 : State) :
  collection st1 = collection st2 ->
  documents_dir st1 = documents_dir st2 ->
  collection (ingest_documents_after force_reload st1)
  = collection (ingest_documents_after force_reload st2).
Proof.
  intros Hc Hd.
  unfold ingest_documents_after, ingest_documents, get, bind, ret. simpl.
  rewrite Hc, Hd.
  destruct (negb force_reload && _); [exact Hc |].
  destruct (documents_dir st2) as [docs|]; [| exact Hc].
  unfold collection_add, emit, modify, get, bind, raise. simpl.
  match goal with |- context [match ?b with [] => _ | _ :: _ => _ end] =>
    destruct b as [|x batch] end; [exact Hc |].
  destruct (negb _); [exact Hc |].
  rewrite Hc.
  destruct on_existing_id; [reflexivity |].
  destruct (bool_decide _); [exact Hc | reflexivity].
Qed.

Lemma ingest_documents_keeps_documents_dir (force_reload : bool) (st : State) :
  documents_dir (ingest_documents_after force_reload st) = documents_dir st.
Proof.
  unfold ingest_documents_after, ingest_documents, get, bind, ret. simpl.
  destruct (negb force_reload && _); [reflexivity |].
  destruct (documents_dir st) as [docs|] eqn:E; [| simpl; exact E].
  unfold collection_add, emit, modify, get, bind, raise. simpl.
  match goal with |- context [match ?b with [] => _ | _ :: _ => _ end] =>
    destruct b as [|x batch] end; [exact E |].
  destruct (negb _); [exact E |].
  destruct on_existing_id; [exact E |].
  destruct (bool_decide _); exact E.
Qed.

(** C6. With [force_reload] false and an index that holds at least one
    chunk, [ingest_documents] returns at once and leaves the whole state
    as it was: the same index, the same count, and no embedding or
    insertion in the trace.  Hence running it twice with [force_reload]
    false leaves the index as a single run does. *)
Theorem ingest_documents_skip_when_loaded (st : State) :
  ((0 < count (collection st))%nat ->
   ingest_documents false st = (Returned tt, st) /\
   collection (ingest_documents_after false st) = collection st /\
   count (collection (ingest_documents_after false st)) = count (collection st) /\
   calls is_embed (trace (ingest_documents_after false st)) = calls is_embed (trace st) /\
   calls is_insert (trace (ingest_documents_after false st)) = calls is_insert (trace st)) /\
  collection (ingest_documents_after false (ingest_documents_after false st))
  = collection (ingest_documents_after false st).
Proof.
  assert (forall s, (0 < count (collection s))%nat ->
                    ingest_documents false s = (Returned tt, s)) as Hskip.
  { intros s Hs. unfold ingest_documents, get, bind, ret. simpl.
    apply Nat.ltb_lt in Hs. rewrite Hs. reflexivity. }
  split.
  { intros Hpos. unfold ingest_documents_after. rewrite (Hskip st Hpos).
    repeat split. }
  destruct (ingest_documents_collection false st) as [H | (batch & Hne & H)].
  - apply ingest_documents_deterministic; [exact H |].
    apply ingest_documents_keeps_documents_dir.
  - unfold ingest_documents_after at 1. rewrite Hskip; [reflexivity |].
    unfold count. rewrite H. apply union_list_to_map_nonempty, Hne.
Qed.

(** Whatever [force_reload] is, a record the index held before
    ingestion is still there afterwards, with the text, embedding and
    metadata it had. *)
Lemma ingest_documents_keeps_entries (force_reload : bool) (st : State)
      (id : string) (e : entry) :
  collection st !! id = Some e ->
  collection (ingest_documents_after force_reload st) !! id = Some e.
Proof.
  intros Hid.
  destruct (ingest_documents_collection force_reload st) as [-> | (batch & _ & ->)].
  - exact Hid.
  - apply lookup_union_Some_l. exact Hid.
Qed.

(** C3, where the code departs from it.  [ingest_documents] never
    empties the collection before it adds: after a run with
    [force_reload] true, every record the index held before is still
    there under its id with the text, embedding and metadata it had, so
    a chunk of a rewritten or removed document survives the reload. *)
Theorem force_reload_keeps_prior_entries (st : State) (id : string) (e : entry) :
  collection st !! id = Some e ->
  collection (ingest_documents_after true st) !! id = Some e.
Proof. apply ingest_documents_keeps_entries. Qed.

(** *** Retrieval with no chunks *)

Lemma insert_nearest_not_nil (q : Embedding) (x : string * entry) (l : list (string * entry)) :
  insert_nearest q x l <> [].
Proof. destruct l; simpl; [| destruct (closer _ _ _)]; discriminate. Qed.

(** The search returns no chunk exactly when the index is empty. *)
Lemma collection_query_nil (c : gmap string entry) (q : Embedding) :
  collection_query c q 5 = [] <-> c = ∅.
Proof.
  unfold collection_query, nearest_first. split.
  - intros H. apply map_to_list_empty_iff.
    destruct (map_to_list c) as [|x l]; [reflexivity |]. simpl in H.
    pose proof (insert_nearest_not_nil q x (foldr (insert_nearest q) [] l)) as Hne.
    destruct (insert_nearest q x (foldr (insert_nearest q) [] l)); [congruence | discriminate].
  - intros ->. rewrite map_to_list_empty. reflexivity.
Qed.

(** The stateless path honours the guard: with no chunk retrieved it
    returns the fixed answer and sends nothing to the gateway. *)
Lemma stateless_query_no_chunks (question : string) (st : State) :
  collection_query (collection st) (encode question) 5 = [] ->
  fst (query question false st) = Returned (Result no_information_answer [] [] None) /\
  calls is_generate (trace (snd (query question false st))) = calls is_generate (trace st).
Proof.
  intros H. unfold query, _stateless_query, try_except, emit, modify, get, bind, ret.
  simpl. rewrite H. simpl. split; [reflexivity |].
  rewrite calls_app. simpl. unfold calls at 2. simpl. lia.
Qed.

(** C4, where the code departs from it.  With conversation memory on
    (the default, and the only mode the orchestrator uses) the guard is
    missing: when the search returns no chunk and the conversation buffer
    is empty, [query] still sends one generation request to the gateway,
    over an empty context, and returns the model's reply as the answer
    instead of the fixed one. *)
Theorem query_with_memory_generates_without_chunks
        (question text : string) (st : State) (w : World) :
  collection_query (collection st) (encode question) 5 = [] ->
  get_chat_history (default [] (memory st)) = "" ->
  messages_create (StuffDocumentsPrompt "" question) (world st) = (Returned text, w) ->
  fst (query question true st) = Returned (Result text [] [] None) /\
  calls is_generate (trace (snd (query question true st)))
  = S (calls is_generate (trace st)).
Proof.
  intros Hc Hh Hcall. apply collection_query_nil in Hc.
  unfold query, conversation_chain_call, _initialize_conversation_chain,
    try_except, generate, external, emit, modify, get, bind, ret.
  simpl.
  destruct (conversation_chain st) eqn:Hcc; simpl; rewrite ?Hcc; simpl;
    rewrite ?Hh; simpl; rewrite Hc; unfold collection_query;
    rewrite map_to_list_empty; simpl; rewrite Hcall; simpl;
    (split; [reflexivity |]);
    repeat rewrite calls_app; unfold calls; simpl; lia.
Qed.

(** *** Conversation memory *)

(** C9. [clear_memory] returns normally, leaves an empty conversation
    history, and changes nothing else: the similarity index (ids, texts,
    embeddings, metadata), the chain, the documents, the outside world
    and the trace are as before. *)
Theorem clear_memory_only_empties_turn_log (st : State) :
  fst (clear_memory st) = Returned tt /\
  fst (get_conversation_history (snd (clear_memory st))) = Returned [] /\
  snd (clear_memory st)
  = set_memory (match memory st with Some _ => Some [] | None => None end) st /\
  collection (snd (clear_memory st)) = collection st /\
  trace (snd (clear_memory st)) = trace st.
Proof.
  unfold clear_memory, get_conversation_history, modify, get, bind, ret. simpl.
  destruct st as [w c ch [m|] d se sc t]; simpl; repeat split.
Qed.

(** *** The dict [query] returns *)

Lemma rag_query_returns (question : string) (use_memory : bool) :
  returns_with well_formed (query question use_memory).
Proof.
  unfold query. apply returns_with_try_except.
  - destruct use_memory.
    + repeat (apply post_bind; intros ?). apply post_ret. left. reflexivity.
    + unfold _stateless_query. do 2 (apply post_bind; intros ?).
      destruct (collection_query _ _ _).
      * apply post_ret. left. reflexivity.
      * apply post_bind. intros ?. apply post_ret. left. reflexivity.
  - intros e. apply returns_with_ret. right. exists (exn_str e). split; reflexivity.
Qed.


End WithExternals.
End RAGAgentFacts.

(** ** Structured-query and web agents *)

Module SQLAgentFacts.
Section WithExternals.
Context `{Ext : Externals}.
Import SQLAgent MonadFacts.

Lemma sql_query_returns (question : string) : returns_with well_formed (query question).
Proof.
  unfold query. apply returns_with_try_except.
  - repeat (apply post_bind; intros ?). apply post_ret. left. reflexivity.
  - intros e. apply returns_with_ret. right. exists (exn_str e). split; reflexivity.
Qed.


End WithExternals.
End SQLAgentFacts.

Module WebAgentFacts.
Section WithExternals.
Context `{Ext : Externals}.
Import WebAgent MonadFacts.

Lemma query_not_configured (question : string) (st : State) :
  search_enabled st = false -> query question st = (Returned not_configured_result, st).
Proof.
  intros H. unfold query, get, bind, ret. simpl. rewrite H. reflexivity.
Qed.

Lemma query_configured (question : string) (st : State) :
  search_enabled st = true ->
  exists r st', query question st = (Returned r, st') /\ configured_result r.
Proof.
  intros H. unfold query at 1, get, bind at 1. simpl. rewrite H. simpl.
  apply returns_with_try_except.
  - apply post_bind. intros [|hit hits].
    + apply post_ret. left. reflexivity.
    + apply post_bind. intros answer. apply post_ret. left. reflexivity.
  - intros e. apply returns_with_ret. right. exists (exn_str e). split; reflexivity.
Qed.

(** A search that fails at run time is swallowed by [_search_web]. *)
Lemma query_search_failure (question : string) (st : State) (e : exn) (w : World) :
  search_enabled st = true ->
  tavily_search question 5 (world st) = (Raised e, w) ->
  fst (query question st) = Returned (Result nothing_found_answer [] [] None).
Proof.
  intros H Hs. unfold query, _search_web, try_except, external, get, bind, ret.
  simpl. rewrite H. simpl. rewrite H. simpl. rewrite Hs. reflexivity.
Qed.

Lemma web_query_returns (question : string) :
  returns_with (fun r => forall msg, error r = Some msg -> answer r <> "") (query question).
Proof.
  intros st. destruct (search_enabled st) eqn:E.
  - destruct (query_configured question st E) as (r & st' & Hrun & Hr).
    exists r, st'. split; [exact Hrun |]. intros msg Hmsg.
    destruct Hr as [Hr | (m & Ha & _)]; [congruence |]. rewrite Ha. discriminate.
  - exists not_configured_result, st. split; [apply query_not_configured, E |].
    intros _ _. discriminate.
Qed.


(** C8. Without a configured search provider the web agent returns, at
    once and without searching or generating, the fixed answer (which is
    not empty and names the key to set) with the error
    [Web search not configured]; and no result the agent returns when a
    provider is configured, a run-time search failure included, carries
    both that answer and that error. *)
Theorem query_not_configured_is_distinct (question : string) (st : State) :
  search_enabled st = false ->
  query question st = (Returned not_configured_result, st) /\
  answer not_configured_result <> "" /\
  PyStr.contains "TAVILY_API_KEY" (answer not_configured_result) = true /\
  error not_configured_result = Some "Web search not configured" /\
  forall question' st' r,
    search_enabled st' = true ->
    fst (query question' st') = Returned r ->
    ~ (answer r = answer not_configured_result /\
       error r = error not_configured_result).
Proof.
  intros H. split; [apply query_not_configured, H |].
  split; [discriminate |]. split; [vm_compute; reflexivity |].
  split; [reflexivity |].
  intros question' st' r H' Hrun [Ha He].
  destruct (query_configured question' st' H') as (r' & st'' & Hrun' & Hr').
  rewrite Hrun' in Hrun. simpl in Hrun. injection Hrun as ->.
  destruct Hr' as [Hr' | (m & Ha' & _)].
  - rewrite Hr' in He. discriminate.
  - rewrite Ha' in Ha. discriminate.
Qed.

End WithExternals.
End WebAgentFacts.

(** ** Orchestrator *)

Module CFOAssistantFacts.
Section WithExternals.
Context `{Ext : Externals}.
Import CFOAssistant MonadFacts.

Lemma dispatch_unknown (agent_type question : string) (st : State) :
  ~ names_handler agent_type ->
  dispatch agent_type question st = (Returned unknown_agent_result, st).
Proof.
  intros Hn. unfold dispatch.
  destruct (String.eqb_spec agent_type "SQL") as [->|_];
    [exfalso; apply Hn; left; reflexivity |].
  destruct (String.eqb_spec agent_type "RAG") as [->|_];
    [exfalso; apply Hn; right; left; reflexivity |].
  destruct (String.eqb_spec agent_type "WEB") as [->|_];
    [exfalso; apply Hn; right; right; reflexivity |].
  reflexivity.
Qed.


(** [dispatch] never raises; the envelope carries the handler's error
    as it is, and an envelope with an error has a non-empty answer. *)
Lemma dispatch_returns (agent_type question : string) (st : State) :
  exists r st',
    dispatch agent_type question st = (Returned r, st') /\
    (forall reported, handler_error agent_type question st = Some reported ->
                      error r = reported) /\
    (forall msg, error r = Some msg -> answer r <> "").
Proof.
  unfold dispatch, handler_error.
  destruct (String.eqb_spec agent_type "SQL") as [->|_];
    [| destruct (String.eqb_spec agent_type "RAG") as [->|_];
       [| destruct (String.eqb_spec agent_type "WEB") as [->|_]]].
  - destruct (SQLAgentFacts.sql_query_returns question (log (EvHandler "SQL") st))
      as (r & st' & Hrun & Hr).
    eexists _, st'. unfold bind, emit, modify, ret. simpl. rewrite Hrun. simpl.
    split; [reflexivity |]. split.
    + intros reported H. injection H as <-. reflexivity.
    + simpl. intros msg Hmsg. destruct Hr as [Hr | (m & Ha & _)]; [congruence |].
      rewrite Ha. discriminate.
  - destruct (RAGAgentFacts.rag_query_returns question true (log (EvHandler "RAG") st))
      as (r & st' & Hrun & Hr).
    eexists _, st'. unfold bind, emit, modify, ret. simpl. rewrite Hrun. simpl.
    split; [reflexivity |]. split.
    + intros reported H. injection H as <-. reflexivity.
    + simpl. intros msg Hmsg. destruct Hr as [Hr | (m & Ha & _)]; [congruence |].
      rewrite Ha. discriminate.
  - destruct (WebAgentFacts.web_query_returns question (log (EvHandler "WEB") st))
      as (r & st' & Hrun & Hr).
    eexists _, st'. unfold bind, emit, modify, ret. simpl. rewrite Hrun. simpl.
    split; [reflexivity |]. split.
    + intros reported H. injection H as <-. reflexivity.
    + simpl. intros msg Hmsg. exact (Hr msg Hmsg).
  - exists unknown_agent_result, st. split; [reflexivity |]. split.
    + intros reported H. discriminate.
    + intros msg _. discriminate.
Qed.

Lemma truthy_nonempty (s : string) : s <> "" -> truthy (Some s) = true.
Proof. destruct s; [congruence | reflexivity]. Qed.

Lemma query_with_override (question s : string) (use_memory : bool) (st : State) :
  s <> "" ->
  query question (Some s) use_memory st = dispatch (PyStr.upper s) question st.
Proof.
  intros Hs. unfold query, resolve_agent_type. rewrite (truthy_nonempty s Hs).
  reflexivity.
Qed.





Lemma agent_event_not_router (e : event) :
  is_agent_event e = true -> is_router_event e = false.
Proof.
  unfold is_agent_event. intros H. apply andb_true_iff in H as [_ H].
  apply negb_true_iff, H.
Qed.

Lemma agent_event_not_handler (e : event) :
  is_agent_event e = true -> is_handler e = false.
Proof. destruct e; simpl; intros H; try reflexivity; discriminate. Qed.



(** C7. Once the agent type is resolved, [query] returns normally
    whatever happens inside the handler, and when the dict the handler
    returns carries an error, the envelope carries that same error and a
    non-empty answer. *)
Theorem query_passes_handler_error_through
        (question : string) (force_agent : option string) (use_memory : bool)
        (st st1 : State) (agent_type : string) :
  resolve_agent_type question force_agent st = (Returned agent_type, st1) ->
  exists r st2,
    query question force_agent use_memory st = (Returned r, st2) /\
    forall msg, handler_error agent_type question st1 = Some (Some msg) ->
                error r = Some msg /\ answer r <> "".
Proof.
  intros Hres. destruct (dispatch_returns agent_type question st1)
    as (r & st2 & Hrun & Herr & Hans).
  exists r, st2. unfold query, bind. rewrite Hres. split; [exact Hrun |].
  intros msg Hmsg. pose proof (Herr _ Hmsg) as He. split; [exact He |].
  exact (Hans msg He).
Qed.

(** C10, amended.  The override is upper-cased before dispatch, so two
    non-empty overrides that agree up to case, such as [sql] and [SQL],
    select the same handler; and for every non-empty override that does
    not upper-case to SQL, RAG or WEB, [query] invokes no handler and no
    router, leaves the state as it is, and returns the unknown-handler
    result: agent [None], a non-empty answer, the error
    [Unknown agent type] and empty metadata. *)
Theorem override_case_and_unknown (question : string) (use_memory : bool) (st : State) :
  (forall s1 s2, s1 <> "" -> s2 <> "" -> PyStr.upper s1 = PyStr.upper s2 ->
     query question (Some s1) use_memory st = query question (Some s2) use_memory st) /\
  query question (Some "sql") use_memory st = query question (Some "SQL") use_memory st /\
  (forall s, s <> "" -> ~ names_handler (PyStr.upper s) ->
     query question (Some s) use_memory st = (Returned unknown_agent_result, st)) /\
  agent_used unknown_agent_result = "None" /\
  answer unknown_agent_result <> "" /\
  error unknown_agent_result = Some "Unknown agent type" /\
  meta unknown_agent_result = EmptyMetadata.
Proof.
  split; [| split; [| split]].
  - intros s1 s2 H1 H2 Hup. rewrite !query_with_override by assumption.
    rewrite Hup. reflexivity.
  - rewrite !query_with_override by discriminate. reflexivity.
  - intros s Hs Hn. rewrite query_with_override by assumption.
    apply dispatch_unknown, Hn.
  - repeat split. discriminate.
Qed.

End WithExternals.
End CFOAssistantFacts.

(** ** Runs on the scripted services *)

Module Runs.
Import Scripted.

Lemma keyword_fallback_priority_witness :
  QueryRouter.keyword_fallback "Compare the travel POLICY" = "SQL" /\
  QueryRouter.keyword_fallback "What's our expense approval policy?" = "RAG" /\
  QueryRouter.keyword_fallback "Latest news about inflation" = "WEB".
Proof.
  split; [| split].
  - apply (QueryRouterFacts.keyword_fallback_priority "Compare the travel POLICY").
    apply QueryRouterFacts.any_keyword_in_mentions. vm_compute. reflexivity.
  - apply (QueryRouterFacts.keyword_fallback_priority "What's our expense approval policy?").
    + apply QueryRouterFacts.any_keyword_in_not_mentions. vm_compute. reflexivity.
    + apply QueryRouterFacts.any_keyword_in_mentions. vm_compute. reflexivity.
  - apply (QueryRouterFacts.keyword_fallback_priority "Latest news about inflation").
    + apply QueryRouterFacts.any_keyword_in_not_mentions. vm_compute. reflexivity.
    + apply QueryRouterFacts.any_keyword_in_not_mentions. vm_compute. reflexivity.
Defined.

(** The gateway is down and the query holds a structured-data keyword. *)
Lemma route_gateway_failure_propagates_witness :
  let st := fresh SkipExisting [] None false in
  fst (QueryRouter.route "Show top 5 companies by revenue" st) = Raised unreachable /\
  forall use_memory,
    fst (CFOAssistant.query "Show top 5 companies by revenue" None use_memory st)
    = Raised unreachable.
Proof.
  intros st.
  apply (@QueryRouterFacts.route_gateway_failure_propagates (externals SkipExisting)
           "Show top 5 companies by revenue" st unreachable []).
  reflexivity.
Defined.

(** The index holds the chunk of an earlier [policy.txt]; the file now
    reads [new text].  After a forced reload the index still answers
    with the old text, where an ingestion into an empty index stores the
    new one. *)
Lemma force_reload_keeps_prior_entries_witness :
  @entry_document (externals SkipExisting)
    <$> (@collection (externals SkipExisting)
           (RAGAgent.ingest_documents_after true (loaded SkipExisting))
         !! "policy_chunk_0") = Some "old text" /\
  @entry_document (externals RejectExisting)
    <$> (@collection (externals RejectExisting)
           (RAGAgent.ingest_documents_after true (loaded RejectExisting))
         !! "policy_chunk_0") = Some "old text" /\
  @entry_document (externals SkipExisting)
    <$> (@collection (externals SkipExisting)
           (RAGAgent.ingest_documents_after true
              (fresh SkipExisting [] (Some rewritten_documents) false))
         !! "policy_chunk_0") = Some "new text".
Proof.
  split; [| split].
  - rewrite (@RAGAgentFacts.force_reload_keeps_prior_entries (externals SkipExisting)
               (loaded SkipExisting) "policy_chunk_0"
               (@Entry (externals SkipExisting) "old text" 8 "policy.txt" 0)).
    + reflexivity.
    + vm_compute. reflexivity.
  - rewrite (@RAGAgentFacts.force_reload_keeps_prior_entries (externals RejectExisting)
               (loaded RejectExisting) "policy_chunk_0"
               (@Entry (externals RejectExisting) "old text" 8 "policy.txt" 0)).
    + reflexivity.
    + vm_compute. reflexivity.
  - vm_compute. reflexivity.
Defined.

(** An empty index, a fresh conversation, and a gateway that answers. *)
Lemma query_with_memory_generates_without_chunks_witness :
  let st := fresh SkipExisting [Returned "Travel must be booked in advance."] None false in
  fst (RAGAgent.query "What is the travel policy?" true st)
  = Returned (RAGAgent.Result "Travel must be booked in advance." [] [] None) /\
  calls is_generate (trace (snd (RAGAgent.query "What is the travel policy?" true st)))
  = S (calls is_generate (trace st)).
Proof.
  intros st.
  apply (@RAGAgentFacts.query_with_memory_generates_without_chunks
           (externals SkipExisting) "What is the travel policy?"
           "Travel must be booked in advance." st []); reflexivity.
Defined.

Lemma ingest_documents_skip_when_loaded_witness :
  RAGAgent.ingest_documents false (loaded SkipExisting)
  = (Returned tt, loaded SkipExisting).
Proof.
  apply (@RAGAgentFacts.ingest_documents_skip_when_loaded (externals SkipExisting)
           (loaded SkipExisting)).
  vm_compute. lia.
Defined.



(** The structured-query handler is forced while the gateway is down. *)
Lemma query_passes_handler_error_through_witness :
  let st := fresh SkipExisting [] None false in
  exists r st2,
    CFOAssistant.query "Show revenue" (Some "sql") true st = (Returned r, st2) /\
    CFOAssistant.error r = Some "Connection error." /\
    CFOAssistant.answer r <> "".
Proof.
  intros st.
  destruct (@CFOAssistantFacts.query_passes_handler_error_through
              (externals SkipExisting) "Show revenue" (Some "sql") true st st "SQL"
              eq_refl) as (r & st2 & Hrun & H).
  exists r, st2. split; [exact Hrun |]. apply H. vm_compute. reflexivity.
Defined.

Lemma query_not_configured_is_distinct_witness :
  let st := fresh SkipExisting [] None false in
  WebAgent.query "Latest news" st = (Returned WebAgent.not_configured_result, st).
Proof.
  intros st.
  apply (@WebAgentFacts.query_not_configured_is_distinct (externals SkipExisting)
           "Latest news" st).
  reflexivity.
Defined.

Lemma override_case_and_unknown_witness :
  let st := fresh SkipExisting [] None false in
  CFOAssistant.query "Latest news" (Some "Web") true st
  = CFOAssistant.query "Latest news" (Some "wEB") true st /\
  CFOAssistant.query "Latest news" (Some "sales") true st
  = (Returned CFOAssistant.unknown_agent_result, st).
Proof.
  intros st. split.
  - apply (@CFOAssistantFacts.override_case_and_unknown (externals SkipExisting)
             "Latest news" true st); [discriminate | discriminate | reflexivity].
  - apply (@CFOAssistantFacts.override_case_and_unknown (externals SkipExisting)
             "Latest news" true st); [discriminate |].
    unfold CFOAssistant.names_handler. vm_compute. intros [H | [H | H]]; discriminate.
Defined.

(** C10 as stated fails at the empty override: it does not upper-case
    to SQL, RAG or WEB, yet [query] consults the router and runs the
    handler the router names instead of returning the unknown-handler
    result. *)
Lemma empty_override_is_routed :
  let st := fresh SkipExisting [Returned "WEB"] None false in
  let run := CFOAssistant.query "Latest news" (Some "") true st in
  ~ CFOAssistant.names_handler (PyStr.upper "") /\
  fst run <> Returned CFOAssistant.unknown_agent_result /\
  fst run = Returned (CFOAssistant.Result WebAgent.not_configured_answer "Web Search"
                        (CFOAssistant.WebMetadata [] [])
                        (Some "Web search not configured")) /\
  calls is_route (trace (snd run)) = 1 /\
  calls is_handler (trace (snd run)) = 1.
Proof.
  intros st run. split; [| split; [| split; [| split]]].
  - intros [H | [H | H]]; discriminate.
  - vm_compute. discriminate.
  - vm_compute. reflexivity.
  - vm_compute. reflexivity.
  - vm_compute. reflexivity.
Qed.

End Runs.

(** * Further properties of the code *)

(** ** Frames *)

Module FrameFacts.
Section WithExternals.
Context `{Ext : Externals}.

Lemma keeps_ret {A X} (part : State -> X) (a : A) : keeps part (ret a).
Proof. intros st. reflexivity. Qed.

Lemma keeps_raise {A X} (part : State -> X) (e : exn) : keeps (A:=A) part (raise e).
Proof. intros st. reflexivity. Qed.

Lemma keeps_get {X} (part : State -> X) : keeps part get.
Proof. intros st. reflexivity. Qed.

Lemma keeps_modify {X} (part : State -> X) (f : State -> State) :
  (forall st, part (f st) = part st) -> keeps part (modify f).
Proof. intros Hf st. apply Hf. Qed.

Lemma keeps_emit {X} (part : State -> X) (e : event) :
  (forall st, part (log e st) = part st) -> keeps part (emit e).
Proof. intros Hf st. apply Hf. Qed.

Lemma keeps_external {A X} (part : State -> X) (f : World -> outcome A * World) :
  (forall w st, part (set_world w st) = part st) -> keeps part (external f).
Proof.
  intros Hf st. unfold external. destruct (f (world st)) as [r w]. apply Hf.
Qed.

Lemma keeps_bind {A B X} (part : State -> X) (m : M State A) (k : A -> M State B) :
  keeps part m -> (forall a, keeps part (k a)) -> keeps part (bind m k).
Proof.
  intros Hm Hk st. unfold bind. specialize (Hm st).
  destruct (m st) as [[a|e] st1]; simpl in *.
  - rewrite (Hk a st1). exact Hm.
  - exact Hm.
Qed.

Lemma keeps_try_except {A X} (part : State -> X) (m : M State A) (h : exn -> M State A) :
  keeps part m -> (forall e, keeps part (h e)) -> keeps part (try_except m h).
Proof.
  intros Hm Hh st. unfold try_except. specialize (Hm st).
  destruct (m st) as [[a|e] st1]; simpl in *.
  - exact Hm.
  - rewrite (Hh e st1). exact Hm.
Qed.

Lemma keeps_generate {X} (part : State -> X) (p : prompt) :
  (forall e st, part (log e st) = part st) ->
  (forall w st, part (set_world w st) = part st) ->
  keeps part (generate p).
Proof.
  intros Hl Hw. unfold generate. apply keeps_bind.
  - apply keeps_emit, Hl.
  - intros _. apply keeps_external, Hw.
Qed.

End WithExternals.

Ltac keeps_step :=
  first
    [ apply keeps_ret | apply keeps_raise | apply keeps_get
    | apply keeps_external; intros ? ?; reflexivity
    | apply keeps_emit; intros ?; reflexivity
    | apply keeps_generate; intros ? ?; reflexivity
    | apply keeps_modify; intros ?; reflexivity
    | apply keeps_bind; [| intros ?]
    | apply keeps_try_except; [| intros ?]
    | match goal with
      | |- keeps _ (if ?b then _ else _) => destruct b
      | |- keeps _ (match ?x with _ => _ end) => destruct x
      end ].

Ltac keeps := repeat keeps_step.

End FrameFacts.

(** ** Router, further *)

Module QueryRouterMore.
Section WithExternals.
Context `{Ext : Externals}.
Import QueryRouter MonadFacts FrameFacts.

Lemma keyword_fallback_known (query : string) :
  CFOAssistant.names_handler (keyword_fallback query).
Proof.
  unfold keyword_fallback, CFOAssistant.names_handler.
  destruct (any_keyword_in sql_keywords _); [left; reflexivity |].
  destruct (any_keyword_in policy_keywords _); [right; left | right; right]; reflexivity.
Qed.

Lemma route_known (query r : string) (st st' : State) :
  route query st = (Returned r, st') -> CFOAssistant.names_handler r.
Proof.
  unfold route. intros H. apply bind_returned_inv in H as (text & st1 & _ & H).
  destruct (bool_decide (PyStr.upper (PyStr.strip text) ∈ ["SQL"; "RAG"; "WEB"])) eqn:E;
    simpl in H; unfold ret in H; injection H as <- _.
  - apply bool_decide_eq_true in E. unfold CFOAssistant.names_handler.
    apply list_elem_of_In in E. simpl in E.
    destruct E as [<- | [<- | [<- | []]]]; auto.
  - apply keyword_fallback_known.
Qed.

(** X1. Whenever [route] returns, it returns SQL, RAG or WEB: a reply of
    the model that is none of the three never reaches the caller. *)
Theorem route_returns_known_agent (query r : string) (st st' : State) :
  route query st = (Returned r, st') ->
  r = "SQL" \/ r = "RAG" \/ r = "WEB".
Proof. apply route_known. Qed.

Lemma route_trace (query : string) (st : State) :
  trace (snd (route query st)) = trace st ++ [EvGenerate (RouterPrompt query)].
Proof.
  unfold route, generate, emit, modify, external, bind, ret. simpl.
  destruct (messages_create (RouterPrompt query) (world st)) as [[text|e] w]; simpl;
    [destruct (negb _) |]; reflexivity.
Qed.

(** X2. [route] sends exactly one request to the gateway, the
    classification prompt for the query, whether the call succeeds or
    raises, and touches nothing of the assistant's own state. *)
Theorem route_one_request (query : string) (st : State) :
  trace (snd (route query st)) = trace st ++ [EvGenerate (RouterPrompt query)] /\
  retrieval_state (snd (route query st)) = retrieval_state st /\
  documents_dir (snd (route query st)) = documents_dir st /\
  search_enabled (snd (route query st)) = search_enabled st /\
  schema (snd (route query st)) = schema st.
Proof.
  split; [apply route_trace |].
  unfold route, generate, emit, modify, external, bind, ret. simpl.
  destruct (messages_create (RouterPrompt query) (world st)) as [[text|e] w]; simpl;
    [destruct (negb _) |]; simpl; repeat split.
Qed.

Lemma lower_upper_char (c : ascii) :
  PyStr.lower_char (PyStr.upper_char c) = PyStr.lower_char c.
Proof.
  destruct c as [[] [] [] [] [] [] [] []]; vm_compute; reflexivity.
Qed.

Lemma lower_lower_char (c : ascii) :
  PyStr.lower_char (PyStr.lower_char c) = PyStr.lower_char c.
Proof.
  destruct c as [[] [] [] [] [] [] [] []]; vm_compute; reflexivity.
Qed.

Lemma lower_upper (s : string) : PyStr.lower (PyStr.upper s) = PyStr.lower s.
Proof.
  induction s as [|c s IH]; [reflexivity |].
  unfold PyStr.lower, PyStr.upper in *. simpl. rewrite lower_upper_char, IH. reflexivity.
Qed.

Lemma lower_lower (s : string) : PyStr.lower (PyStr.lower s) = PyStr.lower s.
Proof.
  induction s as [|c s IH]; [reflexivity |].
  unfold PyStr.lower in *. simpl. rewrite lower_lower_char, IH. reflexivity.
Qed.

(** X3. The keyword fallback does not depend on the case of the query:
    the query in upper case or in lower case is classified as the query
    itself. *)
Theorem keyword_fallback_ignores_case (query : string) :
  keyword_fallback (PyStr.upper query) = keyword_fallback query /\
  keyword_fallback (PyStr.lower query) = keyword_fallback query.
Proof.
  unfold keyword_fallback. rewrite lower_upper, lower_lower. split; reflexivity.
Qed.

End WithExternals.
End QueryRouterMore.

(** ** Strings, further *)

Module PyStrMore.
Import PyStr.

Lemma contains_false_inv (k : string) (c : ascii) (s : string) :
  contains k (String c s) = false ->
  String.prefix k (String c s) = false /\ contains k s = false.
Proof.
  rewrite PyStrFacts.contains_unfold. apply orb_false_iff.
Qed.

Lemma split_once_unfold (sep s : string) :
  split_once sep s =
  if String.prefix sep s
  then Some ("", String.substring (String.length sep) (String.length s - String.length sep) s)
  else match s with
       | EmptyString => None
       | String c s' =>
           match split_once sep s' with
           | Some (a, b) => Some (String c a, b)
           | None => None
           end
       end.
Proof. destruct s; reflexivity. Qed.

Lemma rsplit_once_head_cons (sep : string) (c : ascii) (s : string) :
  rsplit_once_head sep (String c s) =
  if contains sep s then String c (rsplit_once_head sep s)
  else if String.prefix sep (String c s) then EmptyString
  else String c s.
Proof. reflexivity. Qed.

(** [s.split(sep, 1)] has one element only when [sep] does not occur. *)
Lemma split_once_absent (sep s : string) :
  contains sep s = false -> split_once sep s = None.
Proof.
  induction s as [|c s IH]; intros H.
  - rewrite PyStrFacts.contains_unfold in H. apply orb_false_iff in H as [H _].
    rewrite split_once_unfold, H. reflexivity.
  - apply contains_false_inv in H as [Hp Hc]. rewrite split_once_unfold.
    rewrite Hp, (IH Hc). reflexivity.
Qed.

Lemma substring_all (s : string) : String.substring 0 (String.length s) s = s.
Proof. induction s as [|c s IH]; simpl; [reflexivity | rewrite IH; reflexivity]. Qed.

(** Cutting at a one-character separator: the text before its first
    occurrence and the text after it. *)
Lemma split_once_char (c : ascii) (a rest : string) :
  contains (String c "") a = false ->
  split_once (String c "") (a +:+ String c rest) = Some (a, rest).
Proof.
  induction a as [|x a IH]; intros H.
  - change ("" +:+ String c rest) with (String c rest).
    rewrite split_once_unfold.
    assert (String.prefix (String c "") (String c rest) = true) as ->.
    { apply PyStrFacts.prefix_append. exists rest. reflexivity. }
    simpl. rewrite Nat.sub_0_r, substring_all. reflexivity.
  - apply contains_false_inv in H as [Hp Hc].
    change (String x a +:+ String c rest) with (String x (a +:+ String c rest)).
    rewrite split_once_unfold.
    assert (String.prefix (String c "") (String x (a +:+ String c rest)) = false) as ->.
    { destruct (String.prefix (String c "") (String x (a +:+ String c rest))) eqn:E;
        [| reflexivity].
      apply PyStrFacts.prefix_append in E as [t Ht]. injection Ht as -> _.
      rewrite <- Hp. symmetry. apply PyStrFacts.prefix_append. exists a. reflexivity. }
    rewrite (IH Hc). reflexivity.
Qed.

Lemma contains_append_r (k x y : string) :
  String.prefix k y = true -> contains k (x +:+ y) = true.
Proof.
  intros H. apply PyStrFacts.contains_occurs_in.
  apply PyStrFacts.prefix_append in H as [t ->]. exists x, t. reflexivity.
Qed.

(** [s.rsplit(sep, 1)[0]] is the text before an occurrence of [sep] that
    no later occurrence follows. *)
Lemma rsplit_once_head_last (sep x y : string) (c : ascii) :
  String.prefix sep (String c y) = true ->
  contains sep y = false ->
  rsplit_once_head sep (x +:+ String c y) = x.
Proof.
  intros Hp Hc. induction x as [|a x IH].
  - change ("" +:+ String c y) with (String c y). rewrite rsplit_once_head_cons.
    rewrite Hc, Hp. reflexivity.
  - change (String a x +:+ String c y) with (String a (x +:+ String c y)).
    rewrite rsplit_once_head_cons, (contains_append_r sep x (String c y) Hp), IH.
    reflexivity.
Qed.

(** [s.rstrip(chars)] does not end with a stripped character. *)
Lemma rstrip_by_last (p : ascii -> bool) (s pre : string) (c : ascii) :
  rstrip_by p s = pre +:+ String c "" -> p c = false.
Proof.
  revert pre. induction s as [|a s IH]; intros pre H.
  - destruct pre; discriminate.
  - simpl in H. destruct (rstrip_by p s) as [|b r] eqn:E.
    + destruct (p a) eqn:Ea; [destruct pre; discriminate |].
      destruct pre as [|x pre].
      * injection H as <-. exact Ea.
      * injection H as _ H. destruct pre; discriminate.
    + destruct pre as [|x pre].
      * discriminate.
      * injection H as _ H. exact (IH pre H).
Qed.

Lemma append_empty_r (s : string) : s +:+ "" = s.
Proof.
  induction s as [|c s IH]; [reflexivity |].
  change (String c (s +:+ "") = String c s). rewrite IH. reflexivity.
Qed.

Lemma append_assoc (a b c : string) : (a +:+ b) +:+ c = a +:+ (b +:+ c).
Proof.
  induction a as [|x a IH]; [reflexivity |].
  change (String x ((a +:+ b) +:+ c) = String x (a +:+ (b +:+ c))). rewrite IH. reflexivity.
Qed.

Lemma occurs_in_append (x pre post : string) : occurs_in x (pre +:+ x +:+ post).
Proof. exists pre, post. reflexivity. Qed.

Lemma occurs_in_trans (a b c : string) :
  occurs_in a b -> occurs_in b c -> occurs_in a c.
Proof.
  intros (p1 & q1 & ->) (p2 & q2 & ->). exists (p2 +:+ p1), (q1 +:+ q2).
  rewrite !append_assoc. reflexivity.
Qed.

Lemma join_occurs (sep x : string) (parts : list string) :
  In x parts -> occurs_in x (join sep parts).
Proof.
  induction parts as [|p parts IH]; [intros [] |].
  intros [-> | Hin].
  - destruct parts as [|q parts].
    + exists "", "". change (join sep [x]) with x.
      change ("" +:+ x +:+ "") with (x +:+ ""). rewrite append_empty_r. reflexivity.
    + exists "", (sep +:+ join sep (q :: parts)). reflexivity.
  - destruct parts as [|q parts]; [destruct Hin |].
    destruct (IH Hin) as (pre & post & Heq).
    exists (p +:+ sep +:+ pre), post.
    change (join sep (p :: q :: parts)) with (p +:+ sep +:+ join sep (q :: parts)).
    rewrite Heq, !append_assoc. reflexivity.
Qed.

Lemma length_append (a b : string) :
  String.length (a +:+ b) = String.length a + String.length b.
Proof.
  induction a as [|x a IH]; [reflexivity |].
  change (S (String.length (a +:+ b)) = S (String.length a + String.length b)).
  rewrite IH. reflexivity.
Qed.

(** [a + t == b + t] only if [a == b]. *)
Lemma append_cancel_r (a b t : string) : a +:+ t = b +:+ t -> a = b.
Proof.
  revert b. induction a as [|x a IH]; intros [|y b] H.
  - reflexivity.
  - apply (f_equal String.length) in H. rewrite !length_append in H. simpl in H. lia.
  - apply (f_equal String.length) in H. rewrite !length_append in H. simpl in H. lia.
  - injection H as -> H. rewrite (IH b H). reflexivity.
Qed.

Lemma append_cancel_l (a t u : string) : a +:+ t = a +:+ u -> t = u.
Proof.
  induction a as [|x a IH]; intros H; [exact H |]. injection H as H. exact (IH H).
Qed.

Lemma has_char_append (c : ascii) (a b : string) :
  has_char c (a +:+ b) = has_char c a || has_char c b.
Proof.
  induction a as [|x a IH]; [reflexivity |].
  change (Ascii.eqb c x || has_char c (a +:+ b)
          = (Ascii.eqb c x || has_char c a) || has_char c b).
  rewrite IH, orb_assoc. reflexivity.
Qed.

(** A text is cut in one way only at its last occurrence of a character. *)
Lemma last_char_split (c : ascii) (a b d1 d2 : string) :
  has_char c d1 = false -> has_char c d2 = false ->
  a +:+ String c d1 = b +:+ String c d2 -> a = b /\ d1 = d2.
Proof.
  intros H1 H2. revert b. induction a as [|x a IH]; intros [|y b] H.
  - injection H as ->. split; reflexivity.
  - injection H as <- H. rewrite H, has_char_append in H1. simpl in H1.
    rewrite Ascii.eqb_refl, orb_true_r in H1. discriminate.
  - injection H as -> H. rewrite <- H, has_char_append in H2. simpl in H2.
    rewrite Ascii.eqb_refl, orb_true_r in H2. discriminate.
  - injection H as -> H. destruct (IH b H) as [-> ->]. split; reflexivity.
Qed.

Lemma pretty_N_char_not_underscore (x : N) :
  Ascii.eqb "_" (pretty_N_char x) = false.
Proof.
  unfold pretty_N_char. destruct x as [|p]; [reflexivity |].
  destruct p as [p|p|]; try reflexivity;
    destruct p as [p|p|]; try reflexivity;
    destruct p as [p|p|]; try reflexivity;
    destruct p as [p|p|]; reflexivity.
Qed.

Lemma pretty_N_go_no_underscore (x : N) (s : string) :
  has_char "_" s = false -> has_char "_" (pretty_N_go x s) = false.
Proof.
  revert s. induction (N.lt_wf_0 x) as [x _ IH]; intros s Hs.
  assert (x = 0 \/ 0 < x)%N as [-> | Hpos] by lia.
  - rewrite pretty_N_go_0. exact Hs.
  - rewrite pretty_N_go_step by exact Hpos. apply IH.
    + apply N.div_lt; [exact Hpos | reflexivity].
    + simpl. rewrite Hs, orb_false_r. apply pretty_N_char_not_underscore.
Qed.

(** The decimal rendering of a number holds no underscore. *)
Lemma pretty_nat_no_underscore (n : nat) : has_char "_" (pretty n) = false.
Proof.
  unfold pretty, pretty_nat, pretty, pretty_N.
  destruct (decide (N.of_nat n = 0%N)); [reflexivity |].
  apply pretty_N_go_no_underscore. reflexivity.
Qed.

End PyStrMore.

(** ** Structured-query agent, further *)

Module SQLAgentMore.
Section WithExternals.
Context `{Ext : Externals}.
Import SQLAgent MonadFacts FrameFacts.

Lemma generate_sql_trace (question : string) (st : State) :
  trace (snd (_generate_sql question st))
  = trace st ++ [EvGenerate (SqlGenerationPrompt (schema st) question)].
Proof.
  unfold _generate_sql, generate, emit, modify, external, get, bind, ret, raise. simpl.
  destruct (messages_create _ (world st)) as [[text|e] w]; simpl; [| reflexivity].
  destruct (PyStr.startswith _ _); simpl; [| reflexivity].
  destruct (PyStr.split_once _ _) as [[a b]|]; reflexivity.
Qed.

Lemma execute_query_trace (sql : string) (st : State) :
  trace (snd (_execute_query sql st)) = trace st.
Proof.
  unfold _execute_query, try_except, external, raise.
  destruct (read_sql_query sql (world st)) as [[df|e] w]; reflexivity.
Qed.

Lemma calls_snoc (kind : event -> bool) (t : list event) (e : event) :
  calls kind (t ++ [e]) = calls kind t + (if kind e then 1 else 0).
Proof.
  unfold calls. rewrite List.filter_app, length_app. simpl. destruct (kind e); reflexivity.
Qed.

(** X4. When the relational store refuses the generated query,
    [query] reports [Query execution error: ...] both as error and inside
    the apology, returns neither query text nor table, and sends nothing
    more to the gateway: the failure is not narrated. *)
Theorem sql_query_execution_failure
        (question sql : string) (st st1 : State) (e : exn) (w : World) :
  _generate_sql question st = (Returned sql, st1) ->
  read_sql_query sql (world st1) = (Raised e, w) ->
  fst (query question st)
  = Returned (Result ("I encountered an error: Query execution error: " +:+ exn_str e)
                     None None (Some ("Query execution error: " +:+ exn_str e))) /\
  calls is_generate (trace (snd (query question st))) = S (calls is_generate (trace st)).
Proof.
  intros Hgen Hdb.
  pose proof (generate_sql_trace question st) as Ht. rewrite Hgen in Ht. simpl in Ht.
  assert (query question st
          = (Returned (Result ("I encountered an error: Query execution error: " +:+ exn_str e)
                              None None (Some ("Query execution error: " +:+ exn_str e))),
             set_world w st1)) as ->.
  { unfold query, try_except, bind at 1. rewrite Hgen.
    unfold bind at 1, _execute_query, try_except, external, raise. rewrite Hdb.
    reflexivity. }
  split; [reflexivity |]. simpl. rewrite Ht, calls_snoc. simpl. lia.
Qed.

(** X5. When the generated query runs and yields no row, [query]
    answers [No results found for your query.] without a second request
    to the gateway, and still hands back the query text and the empty
    table with no error. *)
Theorem sql_query_empty_result
        (question sql : string) (st st1 : State) (df : DataFrame) (w : World) :
  _generate_sql question st = (Returned sql, st1) ->
  read_sql_query sql (world st1) = (Returned df, w) ->
  df_empty df = true ->
  fst (query question st)
  = Returned (Result "No results found for your query." (Some sql) (Some df) None) /\
  calls is_generate (trace (snd (query question st))) = S (calls is_generate (trace st)).
Proof.
  intros Hgen Hdb Hempty.
  pose proof (generate_sql_trace question st) as Ht. rewrite Hgen in Ht. simpl in Ht.
  assert (query question st
          = (Returned (Result "No results found for your query." (Some sql) (Some df) None),
             set_world w st1)) as ->.
  { unfold query, try_except, bind at 1. rewrite Hgen.
    unfold bind at 1, _execute_query, try_except, external, raise. rewrite Hdb.
    unfold bind, _format_results. rewrite Hempty. reflexivity. }
  split; [reflexivity |]. simpl. rewrite Ht, calls_snoc. simpl. lia.
Qed.

Lemma sql_budget (question : string) (st : State) :
  (S (calls is_generate (trace st)) <= calls is_generate (trace (snd (query question st))))%nat /\
  (calls is_generate (trace (snd (query question st))) <= S (S (calls is_generate (trace st))))%nat.
Proof.
  pose proof (generate_sql_trace question st) as Ht.
  assert (exists n, (n <= 1)%nat /\
            calls is_generate (trace (snd (query question st)))
            = S (calls is_generate (trace st)) + n) as (n & Hn & ->); [| lia].
  unfold query, try_except, bind at 1.
  destruct (_generate_sql question st) as [[sql|e] st1]; simpl in *.
  2: { exists 0. rewrite Ht, calls_snoc. simpl. lia. }
  pose proof (execute_query_trace sql st1) as Hx.
  unfold bind at 1. destruct (_execute_query sql st1) as [[df|e] st2]; simpl in *.
  2: { exists 0. rewrite Hx, Ht, calls_snoc. simpl. lia. }
  unfold _format_results, generate. unfold bind, emit, modify, external, ret.
  destruct (df_empty df); simpl.
  - exists 0. rewrite Hx, Ht, calls_snoc. simpl. lia.
  - exists 1.
    match goal with |- context [messages_create ?p ?w] =>
      destruct (messages_create p w) as [[text|e] w'] end; simpl;
      rewrite !calls_snoc, Hx, Ht, calls_snoc; simpl; lia.
Qed.

(** X6. One question costs the structured-query agent at least one and
    at most two requests to the gateway, whatever the gateway and the
    store do. *)
Theorem sql_query_generation_budget (question : string) (st : State) :
  (S (calls is_generate (trace st)) <= calls is_generate (trace (snd (query question st))))%nat /\
  (calls is_generate (trace (snd (query question st))) <= S (S (calls is_generate (trace st))))%nat.
Proof. apply sql_budget. Qed.

(** X7. A reply wrapped in a code fence is unwrapped: the whole first
    line (the fence and any language tag) and everything from the last
    closing fence on are dropped, and what lies between is trimmed of
    white space and of trailing semicolons. *)
Theorem generate_sql_strips_fence
        (question text fence body tail : string) (st : State) (w : World) :
  messages_create (SqlGenerationPrompt (schema st) question) (world st) = (Returned text, w) ->
  PyStr.strip text = fence +:+ PyStr.nl +:+ body +:+ "```" +:+ tail ->
  PyStr.startswith fence "```" = true ->
  PyStr.contains PyStr.nl fence = false ->
  PyStr.contains "```" ("``" +:+ tail) = false ->
  fst (_generate_sql question st)
  = Returned (PyStr.rstrip_by is_semicolon (PyStr.strip body)).
Proof.
  intros Hcall Htext Hfence Hnl Htail.
  unfold _generate_sql, generate, emit, modify, external, get, bind, ret. simpl.
  rewrite Hcall. simpl. rewrite Htext.
  assert (PyStr.startswith (fence +:+ PyStr.nl +:+ body +:+ "```" +:+ tail) "```" = true) as ->.
  { unfold PyStr.startswith in *. apply PyStrFacts.prefix_append in Hfence as [t ->].
    apply PyStrFacts.prefix_append. eexists. rewrite PyStrMore.append_assoc. reflexivity. }
  change (fence +:+ PyStr.nl +:+ body +:+ "```" +:+ tail)
    with (fence +:+ String (ascii_of_nat 10) (body +:+ "```" +:+ tail)).
  rewrite (PyStrMore.split_once_char _ _ _ Hnl). simpl.
  change (body +:+ "```" +:+ tail) with (body +:+ String "`"%char ("``" +:+ tail)).
  rewrite PyStrMore.rsplit_once_head_last; [reflexivity | | exact Htail].
  apply PyStrFacts.prefix_append. exists tail. reflexivity.
Qed.

(** X8. A reply that opens a code fence and has no line break makes
    [_generate_sql] fail on the missing second part; [query] catches it
    and reports [list index out of range], with no query text and no
    table. *)
Theorem query_fence_without_newline
        (question text : string) (st : State) (w : World) :
  messages_create (SqlGenerationPrompt (schema st) question) (world st) = (Returned text, w) ->
  PyStr.startswith (PyStr.strip text) "```" = true ->
  PyStr.contains PyStr.nl (PyStr.strip text) = false ->
  fst (query question st)
  = Returned (Result "I encountered an error: list index out of range" None None
                     (Some "list index out of range")).
Proof.
  intros Hcall Hfence Hnl.
  unfold query, _generate_sql, try_except, generate, emit, modify, external, get, bind,
    ret, raise.
  simpl. rewrite Hcall. simpl. rewrite Hfence, (PyStrMore.split_once_absent _ _ Hnl).
  reflexivity.
Qed.

(** X9. The query text [_generate_sql] returns never ends with a
    semicolon. *)
Theorem generate_sql_no_trailing_semicolon
        (question sql : string) (st st' : State) :
  _generate_sql question st = (Returned sql, st') ->
  ~ PyStr.ends_with sql ";".
Proof.
  unfold _generate_sql. intros H.
  apply bind_returned_inv in H as (s0 & st0 & _ & H).
  apply bind_returned_inv in H as (text & st1 & _ & H).
  apply bind_returned_inv in H as (cleaned & st2 & _ & H).
  unfold ret in H. injection H as <- _.
  intros [pre Hpre].
  pose proof (PyStrMore.rstrip_by_last is_semicolon _ pre ";"%char Hpre) as Hlast.
  discriminate.
Qed.


Lemma sql_query_keeps_retrieval_state (question : string) :
  keeps retrieval_state (query question).
Proof.
  unfold query, _generate_sql, _execute_query, _format_results. keeps.
Qed.

End WithExternals.
End SQLAgentMore.

(** ** Web agent, further *)

Module WebAgentMore.
Section WithExternals.
Context `{Ext : Externals}.
Import WebAgent MonadFacts FrameFacts.

(** X10. With a provider configured, a search that raises or finds
    nothing gives the same result: the nothing-found answer with no error,
    no sources, and no request to the gateway.  A run-time search failure
    is not reported as an error. *)
Theorem web_query_without_hits (question : string) (st : State) :
  search_enabled st = true ->
  (forall hit hits, fst (tavily_search question 5 (world st)) <> Returned (hit :: hits)) ->
  fst (query question st) = Returned (Result nothing_found_answer [] [] None) /\
  calls is_generate (trace (snd (query question st))) = calls is_generate (trace st).
Proof.
  intros Hen Hnone.
  unfold query, _search_web, try_except, external, get, bind, ret.
  simpl. rewrite Hen. simpl. rewrite Hen. simpl.
  destruct (tavily_search question 5 (world st)) as [[[|hit hits]|e] w]; simpl.
  - split; reflexivity.
  - exfalso. exact (Hnone hit hits eq_refl).
  - split; reflexivity.
Qed.

(** X11. When the search succeeds and the gateway then fails, the hits
    are dropped: the result carries the exception text as error and
    inside the apology, and empty sources and search results. *)
Theorem web_query_generation_failure
        (question : string) (st : State) (hit : search_hit) (hits : list search_hit)
        (w w' : World) (e : exn) :
  search_enabled st = true ->
  tavily_search question 5 (world st) = (Returned (hit :: hits), w) ->
  messages_create (WebAnswerPrompt (_format_search_results (hit :: hits)) question) w
  = (Raised e, w') ->
  fst (query question st)
  = Returned (Result ("I encountered an error while searching: " +:+ exn_str e) [] []
                     (Some (exn_str e))).
Proof.
  intros Hen Hs Hg.
  unfold query, _search_web, try_except, generate, emit, modify, external, get, bind, ret.
  simpl. rewrite Hen. simpl. rewrite Hen. simpl. rewrite Hs. simpl.
  simpl in Hg. rewrite Hg. reflexivity.
Qed.

(** X12. The context built from the hits holds, for each hit, its block:
    the number of the hit counted from 1, then title, URL and content,
    with [No title], [N/A] and [No content] standing in for a missing
    key. *)
Theorem format_search_results_block (results : list search_hit) (i : nat) (r : search_hit) :
  results !! i = Some r ->
  PyStr.occurs_in
    ("[" +:+ pretty (S i) +:+ "] " +:+ default "No title" (hit_title r) +:+ PyStr.nl +:+
     "URL: " +:+ default "N/A" (hit_url r) +:+ PyStr.nl +:+
     "Content: " +:+ default "No content" (hit_content r) +:+ PyStr.nl)
    (_format_search_results results).
Proof.
  intros Hi. unfold _format_search_results.
  destruct results as [|r0 results]; [discriminate |].
  apply PyStrMore.join_occurs. apply list_elem_of_In.
  apply (elem_of_lookup_imap_2
           (fun i r =>
              "[" +:+ pretty (S i) +:+ "] " +:+ default "No title" (hit_title r) +:+ PyStr.nl +:+
              "URL: " +:+ default "N/A" (hit_url r) +:+ PyStr.nl +:+
              "Content: " +:+ default "No content" (hit_content r) +:+ PyStr.nl)
           (r0 :: results) r i Hi).
Qed.

Lemma web_budget (question : string) (st : State) :
  (calls is_generate (trace (snd (query question st))) <= calls is_generate (trace st) + 1)%nat.
Proof.
  unfold query, _search_web, try_except, generate, emit, modify, external, get, bind, ret.
  simpl. destruct (search_enabled st) eqn:Hen; simpl; [| lia]. rewrite Hen. simpl.
  destruct (tavily_search question 5 (world st)) as [[[|hit hits]|e] w]; simpl; try lia.
  match goal with |- context [messages_create ?p ?w0] =>
    destruct (messages_create p w0) as [[?|?] ?]; simpl end;
    rewrite SQLAgentMore.calls_snoc; simpl; lia.
Qed.


Lemma web_query_keeps_retrieval_state (question : string) :
  keeps retrieval_state (query question).
Proof. unfold query, _search_web. keeps. Qed.

End WithExternals.
End WebAgentMore.

(** ** Postconditions, further *)

Module PostFacts.
Section WithExternals.
Context `{Ext : Externals}.
Import MonadFacts.

Lemma post_bind_strong {A B} (R : A -> Prop) (Q : B -> Prop)
      (m : M State A) (k : A -> M State B) :
  post R m -> (forall a, R a -> post Q (k a)) -> post Q (bind m k).
Proof.
  intros Hm Hk st b st' H. apply bind_returned_inv in H as (a & st1 & Hrun & H).
  exact (Hk a (Hm st a st1 Hrun) st1 b st' H).
Qed.

Lemma post_try_except {A} (Q : A -> Prop) (m : M State A) (h : exn -> M State A) :
  post Q m -> (forall e, post Q (h e)) -> post Q (try_except m h).
Proof.
  intros Hm Hh st a st' H. unfold try_except in H.
  destruct (m st) as [[a0|e] st1] eqn:Hrun.
  - injection H as <- <-. exact (Hm st a0 st1 Hrun).
  - exact (Hh e st1 a st' H).
Qed.

End WithExternals.
End PostFacts.

(** ** Retrieval agent, further *)

Module RAGAgentMore.
Section WithExternals.
Context `{Ext : Externals}.
Import RAGAgent MonadFacts FrameFacts.

(** *** Chunk ids *)

Lemma chunk_id_inj (stem1 stem2 : string) (i j : nat) :
  stem1 +:+ "_chunk_" +:+ pretty i = stem2 +:+ "_chunk_" +:+ pretty j ->
  stem1 = stem2 /\ i = j.
Proof.
  intros H.
  assert (forall (s : string) (n : nat),
             s +:+ "_chunk_" +:+ pretty n = (s +:+ "_chunk") +:+ String "_" (pretty n)) as Hre.
  { intros s n. rewrite PyStrMore.append_assoc. reflexivity. }
  rewrite !Hre in H.
  apply PyStrMore.last_char_split in H as [Hs Hp];
    try apply PyStrMore.pretty_nat_no_underscore.
  split; [exact (PyStrMore.append_cancel_r _ _ _ Hs) | exact (pretty_nat_inj _ _ Hp)].
Qed.

Lemma document_entries_lookup (d : document) (i : nat) :
  document_entries d !! i
  = (fun chunk => (doc_stem d +:+ "_chunk_" +:+ pretty i,
                   Entry chunk (encode chunk) (doc_name d) i))
      <$> split_text (doc_text d) !! i.
Proof. unfold document_entries. apply list_lookup_imap. Qed.

Lemma document_entries_elem (d : document) (id : string) (e : entry) :
  (id, e) ∈ document_entries d ->
  exists i chunk, split_text (doc_text d) !! i = Some chunk /\
                  id = doc_stem d +:+ "_chunk_" +:+ pretty i /\
                  e = Entry chunk (encode chunk) (doc_name d) i.
Proof.
  intros H. apply list_elem_of_lookup in H as [i Hi].
  rewrite document_entries_lookup in Hi.
  destruct (split_text (doc_text d) !! i) as [chunk|] eqn:E; [| discriminate].
  injection Hi as <- <-. exists i, chunk. split; [exact E | split; reflexivity].
Qed.

Lemma ingest_batch_elem (docs : list document) (id : string) (e : entry) :
  (id, e) ∈ ingest_batch docs ->
  exists d i chunk, d ∈ docs /\ split_text (doc_text d) !! i = Some chunk /\
                    id = doc_stem d +:+ "_chunk_" +:+ pretty i /\
                    e = Entry chunk (encode chunk) (doc_name d) i.
Proof.
  unfold ingest_batch. intros H. apply list_elem_of_In, in_concat in H as (l & Hin & Hl).
  apply in_map_iff in Hin as (d & <- & Hd).
  apply list_elem_of_In, document_entries_elem in Hl as (i & chunk & H1 & H2 & H3).
  exists d, i, chunk. split; [apply list_elem_of_In, Hd |]. repeat split; assumption.
Qed.

Lemma document_entries_NoDup (d : document) : NoDup (document_entries d).*1.
Proof.
  apply NoDup_alt. intros i j id Hi Hj.
  rewrite list_lookup_fmap, document_entries_lookup in Hi, Hj.
  destruct (split_text (doc_text d) !! i); [| discriminate].
  destruct (split_text (doc_text d) !! j); [| discriminate].
  simpl in Hi, Hj. injection Hi as Hi. injection Hj as Hj. rewrite <- Hj in Hi.
  apply chunk_id_inj in Hi as [_ Hi]. exact Hi.
Qed.

Lemma ingest_batch_NoDup (docs : list document) :
  NoDup (map doc_stem docs) -> NoDup (ingest_batch docs).*1.
Proof.
  induction docs as [|d docs IH]; intros Hnd.
  - constructor.
  - unfold ingest_batch. simpl. rewrite fmap_app.
    apply NoDup_cons in Hnd as [Hd Hnd].
    apply NoDup_app. split; [apply document_entries_NoDup |].
    split; [| apply IH, Hnd].
    intros id Hin Hin'.
    apply list_elem_of_fmap in Hin as ([id1 e1] & -> & Hin).
    apply list_elem_of_fmap in Hin' as ([id2 e2] & Heq & Hin'). simpl in Heq.
    apply document_entries_elem in Hin as (i & chunk & _ & -> & _).
    apply ingest_batch_elem in Hin' as (d' & j & chunk' & Hd' & _ & -> & _).
    apply chunk_id_inj in Heq as [Hstem _].
    apply Hd. rewrite Hstem. apply list_elem_of_In, in_map, list_elem_of_In, Hd'.
Qed.

(** X13. Chunk ids are unique: documents with pairwise distinct stems
    (as the files of one directory have) give a batch in which no id
    occurs twice, so the store never sees a duplicate id in one batch. *)
Theorem ingest_batch_ids_unique (docs : list document) :
  NoDup (map doc_stem docs) -> NoDup (ingest_batch docs).*1.
Proof. apply ingest_batch_NoDup. Qed.

(** *** Ingestion *)

Lemma zip_with_map_diag {A B C D} (f : B -> C -> D) (g : A -> B) (h : A -> C) (l : list A) :
  zip_with f (map g l) (map h l) = map (fun x => f (g x) (h x)) l.
Proof. induction l as [|x l IH]; simpl; [reflexivity | rewrite IH; reflexivity]. Qed.

Lemma map_imap {A B C} (F : B -> C) (g : nat -> A -> B) (l : list A) :
  map F (imap g l) = imap (fun i x => F (g i x)) l.
Proof.
  revert g. induction l as [|x l IH]; intros g; simpl; [reflexivity |].
  rewrite IH. reflexivity.
Qed.

(** The three parallel lists of [ingest_documents], zipped back together,
    are the batch [ingest_batch] describes. *)
Lemma parallel_lists_batch (docs : list document) :
  let rows := concat (map document_rows docs) in
  let all_chunks := map (fun r => fst (fst r)) rows in
  let all_metadatas := map (fun r => snd (fst r)) rows in
  let all_ids := map snd rows in
  zip_with (fun id r => (id, r)) all_ids
    (zip_with (fun ce m => Entry (fst ce) (snd ce) (fst m) (snd m))
       (zip all_chunks (map encode all_chunks)) all_metadatas)
  = ingest_batch docs.
Proof.
  intros rows all_chunks all_metadatas all_ids. unfold all_chunks, all_metadatas, all_ids.
  rewrite map_map, zip_with_map_diag, zip_with_map_diag, zip_with_map_diag.
  unfold rows, ingest_batch. rewrite concat_map, map_map. f_equal.
  apply map_ext. intros d. unfold document_rows, document_entries.
  rewrite map_imap. reflexivity.
Qed.

Lemma ingest_documents_run (force_reload : bool) (docs : list document) (st : State) :
  negb force_reload && (0 <? count (collection st))%nat = false ->
  documents_dir st = Some docs ->
  ingest_documents force_reload st
  = collection_add (ingest_batch docs)
      (log (EvEmbed (map (fun r => fst (fst r)) (concat (map document_rows docs)))) st).
Proof.
  intros Hgo Hdocs. unfold ingest_documents, get, bind at 1. rewrite Hgo, Hdocs.
  unfold bind, emit, modify. rewrite parallel_lists_batch. reflexivity.
Qed.

Lemma collection_add_fresh (batch : list (string * entry)) (st : State) :
  collection st = ∅ -> batch <> [] -> NoDup (batch.*1) ->
  collection_add batch st
  = (Returned tt, set_collection (list_to_map batch) (log (EvInsert (batch.*1)) st)).
Proof.
  intros Hc Hne Hnd. unfold collection_add, emit, modify, get, bind, raise. simpl.
  destruct batch as [|b batch]; [congruence |].
  rewrite bool_decide_true by exact Hnd. simpl. rewrite Hc.
  rewrite (left_id_L ∅ (∪)).
  destruct on_existing_id; [reflexivity |].
  rewrite bool_decide_false; [reflexivity |].
  intros H. apply Exists_exists in H as (i & _ & [x Hx]). rewrite lookup_empty in Hx.
  discriminate.
Qed.

(** X14. Ingestion into an empty index (forced or not) of documents with
    distinct stems and at least one chunk returns normally; afterwards
    the index holds exactly one record per chunk: the [i]-th chunk of a
    document is found under [<stem>_chunk_<i>] with its text, its
    embedding, the file name as source and [i] as chunk id, the count is
    the number of chunks, and there is no other record. *)
Theorem ingest_into_empty_index (force_reload : bool) (docs : list document) (st : State) :
  collection st = ∅ ->
  documents_dir st = Some docs ->
  NoDup (map doc_stem docs) ->
  ingest_batch docs <> [] ->
  fst (ingest_documents force_reload st) = Returned tt /\
  count (collection (ingest_documents_after force_reload st)) = length (ingest_batch docs) /\
  (forall d i chunk,
      d ∈ docs -> split_text (doc_text d) !! i = Some chunk ->
      collection (ingest_documents_after force_reload st)
        !! (doc_stem d +:+ "_chunk_" +:+ pretty i)
      = Some (Entry chunk (encode chunk) (doc_name d) i)) /\
  (forall id e,
      collection (ingest_documents_after force_reload st) !! id = Some e ->
      exists d i chunk,
        d ∈ docs /\ split_text (doc_text d) !! i = Some chunk /\
        id = doc_stem d +:+ "_chunk_" +:+ pretty i /\
        e = Entry chunk (encode chunk) (doc_name d) i).
Proof.
  intros Hc Hdocs Hstems Hne.
  pose proof (ingest_batch_NoDup docs Hstems) as Hnd.
  assert (ingest_documents force_reload st
          = (Returned tt,
             set_collection (list_to_map (ingest_batch docs))
               (log (EvInsert ((ingest_batch docs).*1))
                  (log (EvEmbed (map (fun r => fst (fst r))
                                     (concat (map document_rows docs)))) st)))) as Hrun.
  { rewrite (ingest_documents_run force_reload docs st); [| | exact Hdocs].
    - apply collection_add_fresh; [exact Hc | exact Hne | exact Hnd].
    - unfold count. rewrite Hc, map_size_empty. simpl. apply andb_false_r. }
  unfold ingest_documents_after. rewrite Hrun. simpl.
  split; [reflexivity |]. split; [| split].
  - unfold count. rewrite map_size_list_to_map by exact Hnd. reflexivity.
  - intros d i chunk Hd Hi. apply elem_of_list_to_map_1; [exact Hnd |].
    unfold ingest_batch. apply list_elem_of_In, in_concat.
    exists (document_entries d). split; [apply in_map, list_elem_of_In, Hd |].
    apply list_elem_of_In, list_elem_of_lookup. exists i.
    rewrite document_entries_lookup, Hi. reflexivity.
  - intros id e Hid. apply elem_of_list_to_map_2 in Hid.
    apply ingest_batch_elem, Hid.
Qed.

(** X15. [ingest_documents] does its work in one batch: when it does not
    stop early, the trace gains one embedding call over all chunks of all
    documents followed by one insertion of all ids, and nothing else; it
    never calls the gateway, and it leaves the conversation, the chain
    and the outside world as they were. *)
Theorem ingest_documents_one_batch (force_reload : bool) (st : State) :
  (trace (ingest_documents_after force_reload st) = trace st \/
   exists docs,
     documents_dir st = Some docs /\
     trace (ingest_documents_after force_reload st)
     = trace st ++ [EvEmbed (map (fun be => entry_document (snd be)) (ingest_batch docs));
                    EvInsert ((ingest_batch docs).*1)]) /\
  calls is_generate (trace (ingest_documents_after force_reload st))
  = calls is_generate (trace st) /\
  memory (ingest_documents_after force_reload st) = memory st /\
  conversation_chain (ingest_documents_after force_reload st) = conversation_chain st /\
  world (ingest_documents_after force_reload st) = world st.
Proof.
  unfold ingest_documents_after.
  destruct (negb force_reload && (0 <? count (collection st))%nat) eqn:Hgo.
  { unfold ingest_documents, get, bind, ret. simpl. rewrite Hgo. simpl.
    split; [left; reflexivity |]. repeat split. }
  destruct (documents_dir st) as [docs|] eqn:Hdocs.
  2: { unfold ingest_documents, get, bind, raise. simpl. rewrite Hgo, Hdocs. simpl.
       split; [left; reflexivity |]. repeat split. }
  rewrite (ingest_documents_run force_reload docs st Hgo Hdocs).
  assert (map (fun r => fst (fst r)) (concat (map document_rows docs))
          = map (fun be => entry_document (snd be)) (ingest_batch docs)) as ->.
  { unfold ingest_batch. rewrite !concat_map, !map_map. f_equal. apply map_ext.
    intros d. unfold document_rows, document_entries. rewrite !map_imap. reflexivity. }
  assert (forall batch s,
             trace (snd (collection_add batch s)) = trace s ++ [EvInsert (batch.*1)] /\
             memory (snd (collection_add batch s)) = memory s /\
             conversation_chain (snd (collection_add batch s)) = conversation_chain s /\
             world (snd (collection_add batch s)) = world s) as Hadd.
  { intros batch s. unfold collection_add, emit, modify, get, bind, raise. simpl.
    destruct batch as [|b batch]; [repeat split |].
    destruct (bool_decide (NoDup _)); simpl; [| repeat split].
    destruct on_existing_id; [repeat split |].
    destruct (bool_decide (Exists _ _)); repeat split. }
  match goal with |- context [collection_add ?b ?s] =>
    destruct (Hadd b s) as (Ht & Hm & Hch & Hw) end.
  rewrite Ht, Hm, Hch, Hw. simpl. split; [| split; [| repeat split]].
  - right. exists docs. split; [reflexivity |]. rewrite <- app_assoc. reflexivity.
  - rewrite !SQLAgentMore.calls_snoc. simpl. lia.
Qed.

(** *** Conversation *)

Lemma ingest_documents_keeps_conversation (force_reload : bool) :
  keeps (fun st => (memory st, conversation_chain st)) (ingest_documents force_reload).
Proof. unfold ingest_documents, collection_add. keeps. Qed.

Lemma query_keeps_collection (question : string) (use_memory : bool) :
  keeps (fun st => (collection st, documents_dir st)) (query question use_memory).
Proof.
  unfold query, conversation_chain_call, _initialize_conversation_chain, _stateless_query.
  keeps.
Qed.

Lemma stateless_query_keeps_conversation (question : string) :
  keeps (fun st => (memory st, conversation_chain st)) (query question false).
Proof. unfold query, _stateless_query. keeps. Qed.

(** X16. Retrieval only reads the index: a question, with or without
    memory, answered or failed, leaves the collection and the documents
    as they were; without memory it leaves the conversation and the
    chain untouched as well. *)
Theorem query_reads_index_only (question : string) (use_memory : bool) (st : State) :
  collection (snd (query question use_memory st)) = collection st /\
  documents_dir (snd (query question use_memory st)) = documents_dir st /\
  (use_memory = false ->
   memory (snd (query question use_memory st)) = memory st /\
   conversation_chain (snd (query question use_memory st)) = conversation_chain st).
Proof.
  pose proof (query_keeps_collection question use_memory st) as H.
  injection H as Hc Hd. split; [exact Hc |]. split; [exact Hd |].
  intros ->. pose proof (stateless_query_keeps_conversation question st) as H.
  injection H as Hm Hch. split; assumption.
Qed.

(** X17. A question asked with memory is recorded when it is answered
    and only then: a result without error means that the question and the
    answer were appended, in that order, to the conversation; a result
    with an error means that the conversation is as it was. *)
Theorem query_with_memory_records_turn
        (question : string) (st st' : State) (r : result) :
  chain_has_memory st ->
  query question true st = (Returned r, st') ->
  (error r = None ->
   history st' = history st ++ [HumanMessage question; AIMessage (answer r)]) /\
  (forall msg, error r = Some msg -> history st' = history st).
Proof.
  intros Hinv Hrun. destruct st as [w c ch mem d se sc t].
  unfold chain_has_memory in Hinv. simpl in Hinv. unfold history. simpl.
  assert ((ch = true /\ exists m, mem = Some m) \/ (ch = false /\ mem = None))
    as [[-> [m ->]] | [-> ->]].
  { destruct ch, mem as [m|]; eauto.
    - destruct Hinv as [Hinv _]. destruct (Hinv eq_refl) as [x Hx]. discriminate.
    - destruct Hinv as [_ Hinv]. discriminate (Hinv (ex_intro _ m eq_refl)). }
  - revert Hrun.
    unfold query, conversation_chain_call, try_except, generate, external, emit,
      modify, get, bind, ret.
    simpl.
    destruct (get_chat_history m) eqn:Hh; simpl;
      repeat match goal with
        | |- context [messages_create ?p ?w0] =>
            destruct (messages_create p w0) as [[?|?] ?]; simpl
        end;
      intros Hrun; injection Hrun as <- <-; simpl;
      (split; [intros; try discriminate; reflexivity
              | intros; try discriminate; reflexivity]).
  - revert Hrun.
    unfold query, conversation_chain_call, _initialize_conversation_chain, try_except,
      generate, external, emit, modify, get, bind, ret.
    simpl.
    repeat match goal with
      | |- context [messages_create ?p ?w0] =>
          destruct (messages_create p w0) as [[?|?] ?]; simpl
      end;
      intros Hrun; injection Hrun as <- <-; simpl;
      (split; [intros; try discriminate; reflexivity
              | intros; try discriminate; reflexivity]).
Qed.

Lemma query_with_memory_chain (question : string) (st : State) :
  chain_has_memory st ->
  conversation_chain (snd (query question true st)) = true /\
  is_Some (memory (snd (query question true st))).
Proof.
  intros Hinv. destruct st as [w c ch mem d se sc t].
  unfold chain_has_memory in Hinv. simpl in Hinv.
  assert ((ch = true /\ exists m, mem = Some m) \/ (ch = false /\ mem = None))
    as [[-> [m ->]] | [-> ->]].
  { destruct ch, mem as [m|]; eauto.
    - destruct Hinv as [Hinv _]. destruct (Hinv eq_refl) as [x Hx]. discriminate.
    - destruct Hinv as [_ Hinv]. discriminate (Hinv (ex_intro _ m eq_refl)). }
  - unfold query, conversation_chain_call, try_except, generate, external, emit,
      modify, get, bind, ret.
    simpl.
    destruct (get_chat_history m) eqn:Hh; simpl;
      repeat match goal with
        | |- context [messages_create ?p ?w0] =>
            destruct (messages_create p w0) as [[?|?] ?]; simpl
        end; split; eauto.
  - unfold query, conversation_chain_call, _initialize_conversation_chain, try_except,
      generate, external, emit, modify, get, bind, ret.
    simpl.
    repeat match goal with
      | |- context [messages_create ?p ?w0] =>
          destruct (messages_create p w0) as [[?|?] ?]; simpl
      end; split; eauto.
Qed.

(** X18. The chain and its memory stay in step: if the chain exists
    exactly when the memory does (as in a new agent, where neither does),
    this still holds after any question, after [clear_memory] and after
    ingestion; and after a question asked with memory both exist. *)
Theorem chain_has_memory_kept (st : State) :
  chain_has_memory st ->
  (forall question use_memory, chain_has_memory (snd (query question use_memory st))) /\
  chain_has_memory (snd (clear_memory st)) /\
  (forall force_reload, chain_has_memory (ingest_documents_after force_reload st)) /\
  (forall question,
      conversation_chain (snd (query question true st)) = true /\
      is_Some (memory (snd (query question true st)))).
Proof.
  intros Hinv. split; [| split; [| split]].
  - intros question [|].
    + destruct (query_with_memory_chain question st Hinv) as [Hc Hm].
      unfold chain_has_memory. rewrite Hc. split; intros _; [exact Hm | reflexivity].
    + pose proof (stateless_query_keeps_conversation question st) as H.
      injection H as Hm Hch. unfold chain_has_memory. rewrite Hm, Hch. exact Hinv.
  - unfold clear_memory, modify, get, bind, ret, chain_has_memory in *. simpl.
    destruct (memory st) as [m|] eqn:E; simpl; [| rewrite E; exact Hinv].
    split; [eauto |]. intros _. apply Hinv. eauto.
  - intros force_reload.
    pose proof (ingest_documents_keeps_conversation force_reload st) as H.
    injection H as Hm Hch. unfold chain_has_memory, ingest_documents_after.
    rewrite Hm, Hch. exact Hinv.
  - intros question. exact (query_with_memory_chain question st Hinv).
Qed.

(** *** Sources *)

Lemma length_remove_dups (l : list string) : length (remove_dups l) <= length l.
Proof.
  induction l as [|x l IH]; simpl; [lia |].
  destruct (decide_rel elem_of x l); simpl; lia.
Qed.

Lemma collection_query_length (c : gmap string entry) (q : Embedding) (n : nat) :
  length (collection_query c q n) <= n.
Proof. unfold collection_query. rewrite length_take. lia. Qed.

(** X19. The sources of a result name each source file once, and at
    most five passages stand behind them; with memory, the passages are
    handed back and the sources are exactly the files these passages come
    from. *)
Theorem query_sources_deduplicated
        (question : string) (use_memory : bool) (st st' : State) (r : result) :
  query question use_memory st = (Returned r, st') ->
  NoDup (sources r) /\
  length (sources r) <= 5 /\
  length (source_documents r) <= 5 /\
  (forall d, In d (source_documents r) -> In (metadata_source d) (sources r)) /\
  (use_memory = true ->
   forall s, In s (sources r) ->
             exists d, In d (source_documents r) /\ metadata_source d = s).
Proof.
  set (Q := fun r : result =>
              NoDup (sources r) /\
              length (sources r) <= 5 /\
              length (source_documents r) <= 5 /\
              (forall d, In d (source_documents r) -> In (metadata_source d) (sources r)) /\
              (use_memory = true ->
               forall s, In s (sources r) ->
                         exists d, In d (source_documents r) /\ metadata_source d = s)).
  assert (Q (Result "" [] [] None)) as Hempty.
  { unfold Q. simpl. split; [constructor |]. repeat split; try lia; intros; contradiction. }
  assert (forall a e, Q (Result a [] [] e)) as Hnil.
  { intros a e. exact Hempty. }
  assert (post Q (query question use_memory)) as Hpost; [| exact (Hpost st r st')].
  unfold query. apply PostFacts.post_try_except; [| intros e; apply post_ret, Hnil].
  destruct use_memory.
  - apply post_bind. intros st0. apply post_bind. intros _.
    apply (PostFacts.post_bind_strong (fun cr => length (snd cr) <= 5)).
    + unfold conversation_chain_call.
      apply post_bind. intros st1. apply post_bind. intros new_question.
      apply post_bind. intros _. apply post_bind. intros st2.
      apply post_bind. intros answer. apply post_bind. intros _.
      apply post_ret. simpl. rewrite length_map. apply collection_query_length.
    + intros [answer docs] Hlen. simpl in Hlen. apply post_ret. unfold Q. simpl.
      split; [apply NoDup_remove_dups |].
      split; [etransitivity; [apply length_remove_dups |]; rewrite length_map; exact Hlen |].
      split; [exact Hlen |]. split.
      * intros d Hd. rewrite <- list_elem_of_In, elem_of_remove_dups, list_elem_of_In.
        apply in_map, Hd.
      * intros _ s Hs. rewrite <- list_elem_of_In, elem_of_remove_dups, list_elem_of_In in Hs.
        apply in_map_iff in Hs as (d & Hd & Hin). exists d. split; assumption.
  - unfold _stateless_query. apply post_bind. intros _. apply post_bind. intros st0.
    destruct (collection_query (collection st0) (encode question) 5) as [|r0 rs] eqn:E.
    + apply post_ret, Hnil.
    + apply post_bind. intros text. apply post_ret. unfold Q.
      cbn [sources source_documents].
      split; [apply NoDup_remove_dups |].
      split.
      { etransitivity; [apply length_remove_dups |]. rewrite length_map, <- E.
        apply collection_query_length. }
      split; [simpl; lia |]. split; [intros d [] | discriminate].
Qed.

Lemma rag_budget (question : string) (use_memory : bool) (st : State) :
  (calls is_generate (trace (snd (query question use_memory st)))
   <= calls is_generate (trace st) + (if use_memory then 2 else 1))%nat.
Proof.
  destruct use_memory.
  - unfold query, conversation_chain_call, _initialize_conversation_chain, try_except,
      generate, external, emit, modify, get, bind, ret.
    simpl.
    destruct (conversation_chain st) eqn:Hcc; simpl; rewrite ?Hcc; simpl;
      match goal with
      | |- context [match get_chat_history ?m with _ => _ end] =>
          destruct (get_chat_history m) eqn:Hh; simpl
      | _ => idtac
      end;
      repeat match goal with
        | |- context [messages_create ?p ?w0] =>
            destruct (messages_create p w0) as [[?|?] ?]; simpl
        end;
      rewrite ?RAGAgentFacts.calls_app; unfold calls; simpl; lia.
  - unfold query, _stateless_query, try_except, generate, external, emit, modify, get,
      bind, ret.
    simpl.
    destruct (collection_query (collection st) (encode question) 5) as [|r0 rs]; simpl;
      repeat match goal with
        | |- context [messages_create ?p ?w0] =>
            destruct (messages_create p w0) as [[?|?] ?]; simpl
        end;
      rewrite ?RAGAgentFacts.calls_app; unfold calls; simpl; lia.
Qed.


End WithExternals.
End RAGAgentMore.

(** ** Orchestrator, further *)

Module CFOAssistantMore.
Section WithExternals.
Context `{Ext : Externals}.
Import CFOAssistant MonadFacts FrameFacts.

Lemma route_keeps_retrieval_state (question : string) :
  keeps retrieval_state (QueryRouter.route question).
Proof. unfold QueryRouter.route. keeps. Qed.

Lemma resolve_known (question agent_type : string) (force_agent : option string)
      (st st' : State) :
  truthy force_agent = false ->
  resolve_agent_type question force_agent st = (Returned agent_type, st') ->
  names_handler agent_type.
Proof.
  intros Hf H. unfold resolve_agent_type in H. rewrite Hf in H.
  apply bind_returned_inv in H as (u & st1 & _ & H).
  exact (QueryRouterMore.route_known _ _ _ _ H).
Qed.

Lemma dispatch_agent_used (agent_type question : string) (st st' : State) (r : result) :
  names_handler agent_type ->
  dispatch agent_type question st = (Returned r, st') ->
  agent_used r = "SQL Database" \/ agent_used r = "Policy Documents (RAG)" \/
  agent_used r = "Web Search".
Proof.
  intros [-> | [-> | ->]] H; unfold dispatch in H; simpl in H;
    apply bind_returned_inv in H as (u & st1 & _ & H);
    apply bind_returned_inv in H as (hr & st2 & _ & H);
    unfold ret in H; injection H as <- _; simpl; auto.
Qed.

Lemma dispatch_agent_used_routed
      (question : string) (force_agent : option string) (use_memory : bool)
      (st st' : State) (r : result) :
  truthy force_agent = false ->
  query question force_agent use_memory st = (Returned r, st') ->
  agent_used r = "SQL Database" \/ agent_used r = "Policy Documents (RAG)" \/
  agent_used r = "Web Search".
Proof.
  intros Hf H. unfold query in H.
  apply bind_returned_inv in H as (agent_type & st1 & Hres & H).
  exact (dispatch_agent_used _ _ _ _ _ (resolve_known _ _ _ _ _ Hf Hres) H).
Qed.

(** X20. Without an override the unknown-handler answer cannot occur:
    whenever [query] returns after consulting the router, the result
    comes from one of the three handlers. *)
Theorem routed_query_reaches_a_handler
        (question : string) (force_agent : option string) (use_memory : bool)
        (st st' : State) (r : result) :
  truthy force_agent = false ->
  query question force_agent use_memory st = (Returned r, st') ->
  agent_used r = "SQL Database" \/ agent_used r = "Policy Documents (RAG)" \/
  agent_used r = "Web Search".
Proof. apply dispatch_agent_used_routed. Qed.




Lemma dispatch_budget (agent_type question : string) (st : State) :
  (calls is_generate (trace (snd (dispatch agent_type question st)))
   <= calls is_generate (trace st) + 2)%nat.
Proof.
  unfold dispatch.
  destruct (String.eqb agent_type "SQL");
    [| destruct (String.eqb agent_type "RAG");
       [| destruct (String.eqb agent_type "WEB")]].
  - pose proof (SQLAgentMore.sql_budget question (log (EvHandler "SQL") st)) as [_ H].
    unfold bind, emit, modify, ret. simpl.
    destruct (SQLAgent.query question (log (EvHandler "SQL") st)) as [[r|e] s1];
      simpl in *; rewrite SQLAgentMore.calls_snoc in H; simpl in H; lia.
  - pose proof (RAGAgentMore.rag_budget question true (log (EvHandler "RAG") st)) as H.
    unfold bind, emit, modify, ret. simpl.
    destruct (RAGAgent.query question true (log (EvHandler "RAG") st)) as [[r|e] s1];
      simpl in *; rewrite SQLAgentMore.calls_snoc in H; simpl in H; lia.
  - pose proof (WebAgentMore.web_budget question (log (EvHandler "WEB") st)) as H.
    unfold bind, emit, modify, ret. simpl.
    destruct (WebAgent.query question (log (EvHandler "WEB") st)) as [[r|e] s1];
      simpl in *; rewrite SQLAgentMore.calls_snoc in H; simpl in H; lia.
  - simpl. lia.
Qed.

(** X22. One call of [query] sends at most three requests to the
    gateway (one to classify, at most two inside the handler), and at
    most two when an override is given. *)
Theorem query_generation_budget
        (question : string) (force_agent : option string) (use_memory : bool) (st : State) :
  (calls is_generate (trace (snd (query question force_agent use_memory st)))
   <= calls is_generate (trace st) + (if truthy force_agent then 2 else 3))%nat.
Proof.
  unfold query, resolve_agent_type.
  destruct (truthy force_agent).
  - unfold bind at 1, ret. apply dispatch_budget.
  - unfold bind at 1 2, emit, modify. simpl.
    pose proof (QueryRouterMore.route_trace question (log (EvRoute question) st)) as Ht.
    destruct (QueryRouter.route question (log (EvRoute question) st)) as [[a|e] s1];
      simpl in *.
    + pose proof (dispatch_budget a question s1) as H. rewrite Ht in H.
      rewrite !SQLAgentMore.calls_snoc in H. simpl in H. lia.
    + rewrite Ht, !SQLAgentMore.calls_snoc. simpl. lia.
Qed.

(** X23. Answering never changes the index, whichever handler runs; and
    a question that goes to the structured-query handler, to the web
    handler or to no handler leaves the conversation and the chain as
    they were. *)
Theorem dispatch_keeps_index (agent_type question : string) (st : State) :
  collection (snd (dispatch agent_type question st)) = collection st /\
  (agent_type <> "RAG" ->
   retrieval_state (snd (dispatch agent_type question st)) = retrieval_state st).
Proof.
  unfold dispatch.
  destruct (String.eqb_spec agent_type "SQL") as [->|H1];
    [| destruct (String.eqb_spec agent_type "RAG") as [->|H2];
       [| destruct (String.eqb_spec agent_type "WEB") as [->|H3]]].
  - assert (keeps retrieval_state
              (emit (EvHandler "SQL") ;;;
               r <- SQLAgent.query question ;;
               ret (Result (SQLAgent.answer r) "SQL Database"
                      (SqlMetadata (SQLAgent.sql_query r) (SQLAgent.dataframe r))
                      (SQLAgent.error r)))) as Hk.
    { apply keeps_bind; [keeps | intros _].
      apply keeps_bind; [apply SQLAgentMore.sql_query_keeps_retrieval_state | intros; keeps]. }
    specialize (Hk st). split; [injection Hk as Hc _ _; exact Hc | intros _; exact Hk].
  - split; [| congruence].
    assert (keeps (fun st => (collection st, documents_dir st))
              (emit (EvHandler "RAG") ;;;
               r <- RAGAgent.query question true ;;
               ret (Result (RAGAgent.answer r) "Policy Documents (RAG)"
                      (RagMetadata (RAGAgent.sources r) [])
                      (RAGAgent.error r)))) as Hk.
    { apply keeps_bind; [keeps | intros _].
      apply keeps_bind; [apply RAGAgentMore.query_keeps_collection | intros; keeps]. }
    specialize (Hk st). injection Hk as Hc _. exact Hc.
  - assert (keeps retrieval_state
              (emit (EvHandler "WEB") ;;;
               r <- WebAgent.query question ;;
               ret (Result (WebAgent.answer r) "Web Search"
                      (WebMetadata (WebAgent.sources r) (WebAgent.search_results r))
                      (WebAgent.error r)))) as Hk.
    { apply keeps_bind; [keeps | intros _].
      apply keeps_bind; [apply WebAgentMore.web_query_keeps_retrieval_state | intros; keeps]. }
    specialize (Hk st). split; [injection Hk as Hc _ _; exact Hc | intros _; exact Hk].
  - split; [reflexivity | intros _; reflexivity].
Qed.

End WithExternals.
End CFOAssistantMore.

(** ** The interactive loop *)

Module ChatFacts.
Section WithExternals.
Context `{Ext : Externals}.
Import CFOAssistant MonadFacts.

(** Whatever it prints, and whether it returns or raises,
    [display_result] leaves the assistant alone and only adds lines. *)
Lemma display_result_console (r : result) (c : Console) :
  fst (snd (display_result r c)) = fst c /\
  exists lines, snd (snd (display_result r c)) = snd c ++ lines.
Proof.
  destruct c as [st out].
  unfold display_result, joined_sources, print, modify, bind, ret, raise. simpl.
  destruct (nonempty (metadata_sql_query (meta r))); simpl;
    (destruct (meta r) as [sq df | [|src srcs] chunks | [|src srcs] hits |]; simpl;
     destruct (nonempty (error r)); simpl;
     (split; [reflexivity | rewrite <- ?app_assoc; eexists; reflexivity])).
Qed.

Lemma chat_body_state (line : string) (st : State) (out : list string) :
  PyStr.strip line <> "" ->
  PyStr.lower (PyStr.strip line) ∉ quit_words ->
  fst (snd (chat_body line (st, out)))
  = snd (query (snd (parse_command (PyStr.strip line)))
               (fst (parse_command (PyStr.strip line))) true st).
Proof.
  intros Hne Hq. unfold chat_body.
  destruct (PyStr.strip line) as [|a u] eqn:Hu; [congruence |].
  rewrite bool_decide_false by exact Hq.
  destruct (parse_command (String a u)) as [fa q]. simpl.
  unfold bind at 1, lift. simpl.
  destruct (query q fa true st) as [[r|e] st1]; simpl; [| reflexivity].
  unfold bind, ret.
  pose proof (display_result_console r (st1, out)) as [Hst _].
  destruct (display_result r (st1, out)) as [[[]|e] c1]; simpl in *; exact Hst.
Qed.

(** A pass through the loop never raises, whatever is typed and
    whatever the services do: every exception of the query or of the
    display is caught; and lines already printed stay. *)
Lemma chat_iteration_never_raises (line : option string) (c : Console) :
  exists ctl c' lines,
    chat_iteration line c = (Returned ctl, c') /\ snd c' = snd c ++ lines.
Proof.
  destruct c as [st out]. destruct line as [line|].
  2: { unfold chat_iteration, print, modify, bind, ret. simpl. eauto. }
  unfold chat_iteration, try_except.
  assert (exists lines, snd (snd (chat_body line (st, out))) = out ++ lines) as [lines Hl].
  { unfold chat_body. destruct (PyStr.strip line) as [|a u]; [exists []; simpl; symmetry; apply app_nil_r |].
    destruct (bool_decide _).
    - unfold print, modify, bind, ret. simpl. eauto.
    - destruct (parse_command (String a u)) as [fa q]. unfold bind at 1, lift. simpl.
      destruct (query q fa true st) as [[r|e] st1]; simpl; [| exists []; symmetry; apply app_nil_r].
      unfold bind, ret.
      pose proof (display_result_console r (st1, out)) as [_ [lines Hl]].
      destruct (display_result r (st1, out)) as [[[]|e] c1]; simpl in *; eauto. }
  destruct (chat_body line (st, out)) as [[ctl|e] [st1 out1]]; simpl in *.
  - eauto.
  - unfold print, modify, bind, ret. simpl. rewrite Hl, <- app_assoc. eauto.
Qed.

Lemma query_raises_with_router (question : string) (st : State) (e : exn) (w : World) :
  messages_create (RouterPrompt question) (world st) = (Raised e, w) ->
  exists st', query question None true st = (Raised e, st').
Proof.
  intros Hcall.
  unfold query, resolve_agent_type, QueryRouter.route, generate, emit, modify, external,
    bind, ret.
  simpl. rewrite Hcall. simpl. eauto.
Qed.

(** X24. A gateway failure during routing does not end the session:
    for a line that is no command, the loop prints [Error:] with the
    exception text and goes on to the next line. *)
Theorem chat_survives_router_failure
        (line : string) (st : State) (out : list string) (e : exn) (w : World) :
  PyStr.strip line <> "" ->
  PyStr.lower (PyStr.strip line) ∉ quit_words ->
  parse_command (PyStr.strip line) = (None, PyStr.strip line) ->
  messages_create (RouterPrompt (PyStr.strip line)) (world st) = (Raised e, w) ->
  exists st',
    chat_iteration (Some line) (st, out)
    = (Returned Continue, (st', out ++ [PyStr.nl +:+ "Error: " +:+ exn_str e])).
Proof.
  intros Hne Hq Hp Hcall. unfold chat_iteration, try_except, chat_body.
  destruct (PyStr.strip line) as [|a u] eqn:Hu; [congruence |].
  rewrite bool_decide_false by exact Hq. rewrite Hp.
  unfold bind at 1, lift. simpl.
  destruct (query_raises_with_router (String a u) st e w Hcall) as [st1 Hrun].
  rewrite Hrun. simpl. unfold print, modify, bind, ret. simpl. eauto.
Qed.

Lemma chat_iteration_quit (line : string) (c : Console) :
  PyStr.lower (PyStr.strip line) ∈ quit_words ->
  chat_iteration (Some line) c = (Returned Break, (fst c, snd c ++ ["Goodbye!"])).
Proof.
  intros Hq. unfold chat_iteration, try_except, chat_body.
  destruct (PyStr.strip line) as [|a u] eqn:Hu.
  - apply list_elem_of_In in Hq. simpl in Hq.
    destruct Hq as [H | [H | [H | []]]]; discriminate.
  - rewrite bool_decide_true by exact Hq. reflexivity.
Qed.

Lemma chat_loop_stops (before rest : list (option string)) (line : option string)
      (c : Console) :
  (forall c1, fst (chat_iteration line c1) = Returned Break) ->
  chat_loop (before ++ line :: rest) c = chat_loop (before ++ [line]) c.
Proof.
  intros Hbreak. revert c. induction before as [|l before IH]; intros c; simpl.
  - unfold bind. specialize (Hbreak c).
    destruct (chat_iteration line c) as [[[]|e] c1]; simpl in *;
      try discriminate; reflexivity.
  - unfold bind. destruct (chat_iteration l c) as [[[]|e] c1]; try reflexivity.
    apply IH.
Qed.

(** X25. A blank line is skipped without a trace.  [quit], [exit] and
    [q], in any case and with white space around, print [Goodbye!] and end
    the session without touching the assistant; nothing typed after them
    is processed. *)
Theorem chat_quit_and_blank (line : string) (c : Console) :
  (PyStr.strip line = "" -> chat_iteration (Some line) c = (Returned Continue, c)) /\
  (PyStr.lower (PyStr.strip line) ∈ quit_words ->
   chat_iteration (Some line) c = (Returned Break, (fst c, snd c ++ ["Goodbye!"])) /\
   forall before rest,
     chat_loop (before ++ Some line :: rest) c = chat_loop (before ++ [Some line]) c).
Proof.
  split.
  - intros Hblank. unfold chat_iteration, try_except, chat_body. rewrite Hblank.
    destruct c. reflexivity.
  - intros Hq. split; [apply chat_iteration_quit, Hq |].
    intros before rest. apply chat_loop_stops. intros c1.
    rewrite (chat_iteration_quit line c1 Hq). reflexivity.
Qed.

Lemma chat_iteration_state (line : string) (st : State) (out : list string) :
  PyStr.strip line <> "" ->
  PyStr.lower (PyStr.strip line) ∉ quit_words ->
  fst (snd (chat_iteration (Some line) (st, out)))
  = snd (query (snd (parse_command (PyStr.strip line)))
               (fst (parse_command (PyStr.strip line))) true st).
Proof.
  intros Hne Hq. rewrite <- (chat_body_state line st out Hne Hq).
  unfold chat_iteration, try_except.
  destruct (chat_body line (st, out)) as [[ctl|e] c1]; reflexivity.
Qed.

(** X26. A line that starts with [sql:], [rag:] or [web:] (in lower
    case) forces that handler: the router is not consulted, and the
    assistant ends the turn in the state that a direct dispatch of the
    rest of the line, trimmed, to that handler leaves. *)
Theorem chat_prefix_forces_handler (line rest : string) (st : State) (out : list string) :
  (PyStr.strip line = "sql:" +:+ rest ->
   fst (snd (chat_iteration (Some line) (st, out)))
   = snd (dispatch "SQL" (PyStr.strip rest) st)) /\
  (PyStr.strip line = "rag:" +:+ rest ->
   fst (snd (chat_iteration (Some line) (st, out)))
   = snd (dispatch "RAG" (PyStr.strip rest) st)) /\
  (PyStr.strip line = "web:" +:+ rest ->
   fst (snd (chat_iteration (Some line) (st, out)))
   = snd (dispatch "WEB" (PyStr.strip rest) st)).
Proof.
  assert (forall p : string,
             (p = "sql:" \/ p = "rag:" \/ p = "web:") ->
             PyStr.strip line = p +:+ rest ->
             PyStr.strip line <> "" /\ PyStr.lower (PyStr.strip line) ∉ quit_words) as Hok.
  { intros p Hp Hl. rewrite Hl. split.
    - destruct Hp as [-> | [-> | ->]]; discriminate.
    - intros Hin. apply list_elem_of_In in Hin.
      destruct Hp as [-> | [-> | ->]]; simpl in Hin;
        destruct Hin as [H | [H | [H | []]]]; discriminate. }
  split; [| split]; intros Hl.
  - destruct (Hok "sql:" (or_introl eq_refl) Hl) as [Hne Hq].
    rewrite (chat_iteration_state line st out Hne Hq), Hl.
    assert (parse_command ("sql:" +:+ rest) = (Some "sql", PyStr.strip rest)) as ->.
    { unfold parse_command, PyStr.startswith.
      assert (String.prefix "sql:" ("sql:" +:+ rest) = true) as ->
        by (apply PyStrFacts.prefix_append; eauto).
      reflexivity. }
    reflexivity.
  - destruct (Hok "rag:" (or_intror (or_introl eq_refl)) Hl) as [Hne Hq].
    rewrite (chat_iteration_state line st out Hne Hq), Hl.
    assert (parse_command ("rag:" +:+ rest) = (Some "rag", PyStr.strip rest)) as ->.
    { unfold parse_command, PyStr.startswith.
      assert (String.prefix "rag:" ("rag:" +:+ rest) = true) as ->
        by (apply PyStrFacts.prefix_append; eauto).
      reflexivity. }
    reflexivity.
  - destruct (Hok "web:" (or_intror (or_intror eq_refl)) Hl) as [Hne Hq].
    rewrite (chat_iteration_state line st out Hne Hq), Hl.
    assert (parse_command ("web:" +:+ rest) = (Some "web", PyStr.strip rest)) as ->.
    { unfold parse_command, PyStr.startswith.
      assert (String.prefix "web:" ("web:" +:+ rest) = true) as ->
        by (apply PyStrFacts.prefix_append; eauto).
      reflexivity. }
    reflexivity.
Qed.

Lemma parse_command_agent (user_input : string) :
  fst (parse_command user_input) = None \/
  fst (parse_command user_input) = Some "sql" \/
  fst (parse_command user_input) = Some "rag" \/
  fst (parse_command user_input) = Some "web".
Proof.
  unfold parse_command.
  destruct (PyStr.startswith user_input "sql:"); [auto |].
  destruct (PyStr.startswith user_input "rag:"); [auto |].
  destruct (PyStr.startswith user_input "web:"); auto.
Qed.

(** X27. Nothing typed at the prompt reaches the unknown-handler
    branch: the query made for a command line, when it returns, returns
    the result of one of the three handlers. *)
Theorem chat_never_unknown_handler
        (user_input : string) (st st' : State) (r : result) :
  query (snd (parse_command user_input)) (fst (parse_command user_input)) true st
  = (Returned r, st') ->
  agent_used r = "SQL Database" \/ agent_used r = "Policy Documents (RAG)" \/
  agent_used r = "Web Search".
Proof.
  intros H.
  destruct (parse_command_agent user_input) as [Hf | [Hf | [Hf | Hf]]]; rewrite Hf in H.
  - exact (CFOAssistantMore.dispatch_agent_used_routed _ None _ _ _ _ eq_refl H).
  - rewrite CFOAssistantFacts.query_with_override in H by discriminate.
    apply (CFOAssistantMore.dispatch_agent_used _ _ _ _ _ (or_introl eq_refl) H).
  - rewrite CFOAssistantFacts.query_with_override in H by discriminate.
    apply (CFOAssistantMore.dispatch_agent_used _ _ _ _ _ (or_intror (or_introl eq_refl)) H).
  - rewrite CFOAssistantFacts.query_with_override in H by discriminate.
    apply (CFOAssistantMore.dispatch_agent_used _ _ _ _ _ (or_intror (or_intror eq_refl)) H).
Qed.

(** X28. For a web result that lists sources the display fails: after
    the agent line, the rule and the answer it raises a [TypeError],
    because the sources are dicts and [join] wants strings; neither the
    sources line nor the error line of the result is printed. *)
Theorem display_web_sources_fails
        (r : result) (src : WebAgent.source) (srcs : list WebAgent.source)
        (hits : list search_hit) (c : Console) :
  meta r = WebMetadata (src :: srcs) hits ->
  display_result r c
  = (Raised (Exn "TypeError" "sequence item 0: expected str instance, dict found"),
     (fst c, snd c ++ [PyStr.nl +:+ "Agent: " +:+ agent_used r;
                       PyStr.repeat_str "-" 60;
                       answer r])).
Proof.
  intros Hm. destruct c as [st out].
  unfold display_result, joined_sources, print, modify, bind, ret, raise. simpl.
  rewrite Hm. simpl. rewrite <- !app_assoc. reflexivity.
Qed.

End WithExternals.
End ChatFacts.

(** ** The schema description *)

Module SQLSchemaFacts.
Section WithExternals.
Context `{Ext : Externals}.
Import SQLAgent.

(** X29. The schema text handed to the model describes the whole
    database: for every table it holds the lines [Table: <name>] and
    [Columns: ...], and every column of the table appears in it as
    [<name> (<type>)]; an empty database gives the empty text. *)
Theorem get_schema_describes_tables (tables : list table_info) :
  (tables = [] -> _get_schema tables = "") /\
  forall table,
    In table tables ->
    PyStr.occurs_in (PyStr.nl +:+ "Table: " +:+ table_name table +:+ PyStr.nl +:+ "Columns: ")
                    (_get_schema tables) /\
    forall col,
      In col (table_columns table) ->
      PyStr.occurs_in (fst col +:+ " (" +:+ snd col +:+ ")") (_get_schema tables).
Proof.
  split; [intros ->; reflexivity |].
  intros table Hin.
  set (block := fun table : table_info =>
         PyStr.nl +:+ "Table: " +:+ table_name table +:+ PyStr.nl +:+ "Columns: " +:+
         PyStr.join ", "
           (map (fun col => fst col +:+ " (" +:+ snd col +:+ ")") (table_columns table))).
  assert (PyStr.occurs_in (block table) (_get_schema tables)) as Hblock.
  { unfold _get_schema. apply PyStrMore.join_occurs.
    apply (in_map block tables table Hin). }
  split.
  - apply (PyStrMore.occurs_in_trans _ (block table)); [| exact Hblock].
    exists "", (PyStr.join ", "
                  (map (fun col => fst col +:+ " (" +:+ snd col +:+ ")") (table_columns table))).
    unfold block. rewrite !PyStrMore.append_assoc. reflexivity.
  - intros col Hcol.
    apply (PyStrMore.occurs_in_trans _ (block table)); [| exact Hblock].
    apply (PyStrMore.occurs_in_trans _
             (PyStr.join ", "
                (map (fun col => fst col +:+ " (" +:+ snd col +:+ ")") (table_columns table)))).
    + apply PyStrMore.join_occurs.
      apply (in_map (fun col => fst col +:+ " (" +:+ snd col +:+ ")") _ col Hcol).
    + exists (PyStr.nl +:+ "Table: " +:+ table_name table +:+ PyStr.nl +:+ "Columns: "), "".
      unfold block. rewrite PyStrMore.append_empty_r, !PyStrMore.append_assoc. reflexivity.
Qed.

End WithExternals.
End SQLSchemaFacts.

(** ** Further runs on the scripted services *)

Module MoreRuns.
Import Scripted.

(** The model's reply is no category; the query holds a policy keyword. *)
Lemma route_returns_known_agent_witness :
  let st := fresh SkipExisting [Returned "I am not sure."] None false in
  fst (QueryRouter.route "What is the approval process?" st) = Returned "RAG" /\
  ("RAG" = "SQL" \/ "RAG" = "RAG" \/ "RAG" = "WEB").
Proof.
  intros st. split; [vm_compute; reflexivity |].
  apply (@QueryRouterMore.route_returns_known_agent (externals SkipExisting)
           "What is the approval process?" "RAG" st
           (snd (QueryRouter.route "What is the approval process?" st))).
  vm_compute. reflexivity.
Defined.

(** The store does not know the table the model asks for. *)
Lemma sql_query_execution_failure_witness :
  let st := session SkipExisting db_down (Returned []) [Returned "SELECT * FROM sales;"]
                    None false in
  fst (SQLAgent.query "Show sales" st)
  = Returned (@SQLAgent.Result (configurable SkipExisting db_down (Returned []))
                "I encountered an error: Query execution error: no such table: sales"
                None None (Some "Query execution error: no such table: sales")) /\
  calls is_generate (trace (snd (SQLAgent.query "Show sales" st)))
  = S (calls is_generate (trace st)).
Proof.
  intros st.
  apply (@SQLAgentMore.sql_query_execution_failure
           (configurable SkipExisting db_down (Returned []))
           "Show sales" "SELECT * FROM sales" st
           (snd (SQLAgent._generate_sql "Show sales" st))
           (Exn "DatabaseError" "no such table: sales") []).
  - vm_compute. reflexivity.
  - reflexivity.
Defined.

Lemma sql_query_empty_result_witness :
  let st := session SkipExisting (Returned []) (Returned []) [Returned "SELECT 1"]
                    None false in
  fst (SQLAgent.query "Anything?" st)
  = Returned (@SQLAgent.Result (configurable SkipExisting (Returned []) (Returned []))
                "No results found for your query." (Some "SELECT 1") (Some []) None) /\
  calls is_generate (trace (snd (SQLAgent.query "Anything?" st)))
  = S (calls is_generate (trace st)).
Proof.
  intros st.
  apply (@SQLAgentMore.sql_query_empty_result
           (configurable SkipExisting (Returned []) (Returned []))
           "Anything?" "SELECT 1" st
           (snd (SQLAgent._generate_sql "Anything?" st)) [] []).
  - vm_compute. reflexivity.
  - reflexivity.
  - reflexivity.
Defined.

(** A fenced reply with a language tag, a trailing semicolon and a
    remark after the closing fence. *)
Lemma generate_sql_strips_fence_witness :
  let reply := "```sql" +:+ PyStr.nl +:+ "SELECT 1;" +:+ PyStr.nl +:+ "```" +:+ PyStr.nl
               +:+ "This returns one row." in
  let st := fresh SkipExisting [Returned reply] None false in
  fst (SQLAgent._generate_sql "One?" st) = Returned "SELECT 1".
Proof.
  intros reply st.
  apply (@SQLAgentMore.generate_sql_strips_fence (externals SkipExisting)
           "One?" reply "```sql" ("SELECT 1;" +:+ PyStr.nl)
           (PyStr.nl +:+ "This returns one row.") st []);
    vm_compute; reflexivity.
Defined.

Lemma query_fence_without_newline_witness :
  let st := fresh SkipExisting [Returned "```SELECT 1```"] None false in
  fst (SQLAgent.query "One?" st)
  = Returned (@SQLAgent.Result (externals SkipExisting)
                "I encountered an error: list index out of range" None None
                (Some "list index out of range")).
Proof.
  intros st.
  apply (@SQLAgentMore.query_fence_without_newline (externals SkipExisting)
           "One?" "```SELECT 1```" st []); vm_compute; reflexivity.
Defined.

Lemma generate_sql_no_trailing_semicolon_witness :
  let st := fresh SkipExisting [Returned "SELECT 1;;"] None false in
  fst (SQLAgent._generate_sql "One?" st) = Returned "SELECT 1" /\
  ~ PyStr.ends_with "SELECT 1" ";".
Proof.
  intros st. split; [vm_compute; reflexivity |].
  apply (@SQLAgentMore.generate_sql_no_trailing_semicolon (externals SkipExisting)
           "One?" "SELECT 1" st (snd (SQLAgent._generate_sql "One?" st))).
  vm_compute. reflexivity.
Defined.

(** The search provider is configured and fails at run time. *)
Lemma web_query_without_hits_witness :
  let hits := Raised (Exn "TimeoutError" "search timed out") in
  let st := session SkipExisting (Returned []) hits [] None true in
  fst (WebAgent.query "Latest news" st)
  = Returned (WebAgent.Result WebAgent.nothing_found_answer [] [] None) /\
  calls is_generate (trace (snd (WebAgent.query "Latest news" st)))
  = calls is_generate (trace st).
Proof.
  intros hits st.
  apply (@WebAgentMore.web_query_without_hits
           (configurable SkipExisting (Returned []) hits) "Latest news" st).
  - reflexivity.
  - intros hit rest. discriminate.
Defined.

(** The search finds a page and the gateway is down. *)
Lemma web_query_generation_failure_witness :
  let st := session SkipExisting (Returned []) (Returned [one_hit]) [] None true in
  fst (WebAgent.query "Latest news" st)
  = Returned (WebAgent.Result "I encountered an error while searching: Connection error."
                [] [] (Some "Connection error.")).
Proof.
  intros st.
  apply (@WebAgentMore.web_query_generation_failure
           (configurable SkipExisting (Returned []) (Returned [one_hit]))
           "Latest news" st one_hit [] [] [] unreachable); reflexivity.
Defined.

Lemma format_search_results_block_witness :
  PyStr.occurs_in
    ("[2] CFO trends" +:+ PyStr.nl +:+ "URL: https://example.com/cfo" +:+ PyStr.nl +:+
     "Content: No content" +:+ PyStr.nl)
    (WebAgent._format_search_results [SearchHit None None None; one_hit]).
Proof.
  apply (WebAgentMore.format_search_results_block [SearchHit None None None; one_hit]
           1 one_hit).
  reflexivity.
Defined.

Lemma two_documents_stems : NoDup (map doc_stem two_documents).
Proof.
  apply NoDup_cons. split; [| apply NoDup_singleton].
  intros H. apply list_elem_of_In in H. simpl in H. destruct H as [H | []]. discriminate.
Defined.

Lemma ingest_batch_ids_unique_witness :
  NoDup (RAGAgent.ingest_batch (Ext := externals SkipExisting) two_documents).*1.
Proof.
  apply (@RAGAgentMore.ingest_batch_ids_unique (externals SkipExisting) two_documents).
  exact two_documents_stems.
Defined.

(** Two short policy files are ingested into a new index. *)
Lemma ingest_into_empty_index_witness :
  let st := fresh SkipExisting [] (Some two_documents) false in
  fst (RAGAgent.ingest_documents false st) = Returned tt /\
  RAGAgent.count (collection (RAGAgent.ingest_documents_after false st)) = 2 /\
  collection (RAGAgent.ingest_documents_after false st) !! "travel_chunk_0"
  = Some (@Entry (externals SkipExisting) "Book early." 11 "travel.txt" 0) /\
  collection (RAGAgent.ingest_documents_after false st) !! "expenses_chunk_0"
  = Some (@Entry (externals SkipExisting) "Keep receipts." 14 "expenses.txt" 0).
Proof.
  intros st.
  destruct (@RAGAgentMore.ingest_into_empty_index (externals SkipExisting)
              false two_documents st eq_refl eq_refl two_documents_stems)
    as (Hret & Hcount & Hfind & _); [discriminate |].
  split; [exact Hret |]. split; [exact Hcount |]. split.
  - apply (Hfind (Document "travel" "Book early.") 0 "Book early.");
      [apply list_elem_of_here | reflexivity].
  - apply (Hfind (Document "expenses" "Keep receipts.") 0 "Keep receipts.");
      [apply list_elem_of_further, list_elem_of_here | reflexivity].
Defined.

Lemma query_reads_index_only_witness :
  let st := loaded SkipExisting in
  memory (snd (RAGAgent.query "What changed?" false st)) = memory st /\
  conversation_chain (snd (RAGAgent.query "What changed?" false st))
  = conversation_chain st.
Proof.
  intros st.
  apply (@RAGAgentMore.query_reads_index_only (externals SkipExisting)
           "What changed?" false st).
  reflexivity.
Defined.

(** A first question, answered by the model over the stored chunk. *)
Lemma query_with_memory_records_turn_witness :
  let st := set_collection (stale_index SkipExisting)
              (fresh SkipExisting [Returned "Old text applies."] None false) in
  history (snd (RAGAgent.query "What applies?" true st))
  = history st ++ [HumanMessage "What applies?"; AIMessage "Old text applies."].
Proof.
  intros st.
  apply (@RAGAgentMore.query_with_memory_records_turn (externals SkipExisting)
           "What applies?" st (snd (RAGAgent.query "What applies?" true st))
           (RAGAgent.Result "Old text applies." ["policy.txt"]
              [RAGAgent.SourceDocument "old text" "policy.txt"] None)).
  - split; [discriminate | intros [x Hx]; discriminate].
  - vm_compute. reflexivity.
  - reflexivity.
Defined.

Lemma chain_has_memory_kept_witness :
  let st := fresh SkipExisting [] None false in
  conversation_chain (snd (RAGAgent.query "What applies?" true st)) = true /\
  is_Some (memory (snd (RAGAgent.query "What applies?" true st))).
Proof.
  intros st.
  apply (@RAGAgentMore.chain_has_memory_kept (externals SkipExisting) st).
  split; [discriminate | intros [x Hx]; discriminate].
Defined.

Lemma query_sources_deduplicated_witness :
  let st := set_collection (stale_index SkipExisting)
              (fresh SkipExisting [Returned "Old text applies."] None false) in
  NoDup ["policy.txt"] /\
  fst (RAGAgent.query "What applies?" true st)
  = Returned (RAGAgent.Result "Old text applies." ["policy.txt"]
                [RAGAgent.SourceDocument "old text" "policy.txt"] None).
Proof.
  intros st. split; [| vm_compute; reflexivity].
  apply (@RAGAgentMore.query_sources_deduplicated (externals SkipExisting)
           "What applies?" true st (snd (RAGAgent.query "What applies?" true st))
           (RAGAgent.Result "Old text applies." ["policy.txt"]
              [RAGAgent.SourceDocument "old text" "policy.txt"] None)).
  vm_compute. reflexivity.
Defined.

(** The router answers with an unusable token; the fallback picks WEB. *)
Lemma routed_query_reaches_a_handler_witness :
  let st := fresh SkipExisting [Returned "?"] None false in
  fst (CFOAssistant.query "Latest news" None true st)
  = Returned (CFOAssistant.Result WebAgent.not_configured_answer "Web Search"
                (CFOAssistant.WebMetadata [] []) (Some "Web search not configured")) /\
  ("Web Search" = "SQL Database" \/ "Web Search" = "Policy Documents (RAG)" \/
   "Web Search" = "Web Search").
Proof.
  intros st. split; [vm_compute; reflexivity |].
  apply (@CFOAssistantMore.routed_query_reaches_a_handler (externals SkipExisting)
           "Latest news" None true st (snd (CFOAssistant.query "Latest news" None true st))
           (CFOAssistant.Result WebAgent.not_configured_answer
              "Web Search" (CFOAssistant.WebMetadata [] [])
              (Some "Web search not configured"))).
  - reflexivity.
  - vm_compute. reflexivity.
Defined.


Lemma dispatch_keeps_index_witness :
  let st := loaded SkipExisting in
  retrieval_state (snd (CFOAssistant.dispatch "SQL" "Show revenue" st)) = retrieval_state st.
Proof.
  intros st.
  apply (@CFOAssistantMore.dispatch_keeps_index (externals SkipExisting)
           "SQL" "Show revenue" st).
  discriminate.
Defined.

(** The gateway is down and the user asks a plain question. *)
Lemma chat_survives_router_failure_witness :
  let st := fresh SkipExisting [] None false in
  exists st',
    CFOAssistant.chat_iteration (Some " Latest news ") (st, [])
    = (Returned CFOAssistant.Continue,
       (st', [] ++ [PyStr.nl +:+ "Error: " +:+ "Connection error."])).
Proof.
  intros st.
  apply (@ChatFacts.chat_survives_router_failure (externals SkipExisting)
           " Latest news " st [] unreachable []).
  - vm_compute. discriminate.
  - vm_compute. intros H. apply list_elem_of_In in H. simpl in H.
    destruct H as [H | [H | [H | []]]]; discriminate.
  - vm_compute. reflexivity.
  - reflexivity.
Defined.

Lemma chat_quit_and_blank_witness :
  let c := (fresh SkipExisting [] None false, ["earlier line"]) in
  CFOAssistant.chat_iteration (Some "   ") c = (Returned CFOAssistant.Continue, c) /\
  CFOAssistant.chat_iteration (Some " Quit ") c
  = (Returned CFOAssistant.Break, (fst c, snd c ++ ["Goodbye!"])).
Proof.
  intros c. split.
  - apply (@ChatFacts.chat_quit_and_blank (externals SkipExisting) "   " c).
    reflexivity.
  - apply (@ChatFacts.chat_quit_and_blank (externals SkipExisting) " Quit " c).
    vm_compute. apply list_elem_of_here.
Defined.

Lemma chat_prefix_forces_handler_witness :
  let st := fresh SkipExisting [] None false in
  fst (snd (CFOAssistant.chat_iteration (Some "web:  Latest news") (st, [])))
  = snd (CFOAssistant.dispatch "WEB" "Latest news" st).
Proof.
  intros st.
  apply (@ChatFacts.chat_prefix_forces_handler (externals SkipExisting)
           "web:  Latest news" "  Latest news" st []).
  reflexivity.
Defined.

Lemma chat_never_unknown_handler_witness :
  let st := fresh SkipExisting [] None false in
  fst (CFOAssistant.query "Latest news" (Some "web") true st)
  = Returned (CFOAssistant.Result WebAgent.not_configured_answer "Web Search"
                (CFOAssistant.WebMetadata [] []) (Some "Web search not configured")) /\
  ("Web Search" = "SQL Database" \/ "Web Search" = "Policy Documents (RAG)" \/
   "Web Search" = "Web Search").
Proof.
  intros st. split; [vm_compute; reflexivity |].
  apply (@ChatFacts.chat_never_unknown_handler (externals SkipExisting)
           "web: Latest news" st
           (snd (CFOAssistant.query "Latest news" (Some "web") true st))
           (CFOAssistant.Result WebAgent.not_configured_answer
              "Web Search" (CFOAssistant.WebMetadata [] [])
              (Some "Web search not configured"))).
  vm_compute. reflexivity.
Defined.

Lemma display_web_sources_fails_witness :
  let r := @CFOAssistant.Result (externals SkipExisting) "Rates are rising." "Web Search"
             (CFOAssistant.WebMetadata
                [WebAgent.Source (Some "CFO trends") (Some "https://example.com/cfo")]
                [one_hit]) None in
  let c := (fresh SkipExisting [] None false, []) in
  CFOAssistant.display_result r c
  = (Raised (Exn "TypeError" "sequence item 0: expected str instance, dict found"),
     (fst c, snd c ++ [PyStr.nl +:+ "Agent: " +:+ "Web Search";
                       PyStr.repeat_str "-" 60;
                       "Rates are rising."])).
Proof.
  intros r c.
  apply (@ChatFacts.display_web_sources_fails (externals SkipExisting) r
           (WebAgent.Source (Some "CFO trends") (Some "https://example.com/cfo")) []
           [one_hit] c).
  reflexivity.
Defined.

Lemma get_schema_describes_tables_witness :
  let tables := [SQLAgent.TableInfo "companies" [("company_id", "INTEGER"); ("sector", "TEXT")]] in
  PyStr.occurs_in "sector (TEXT)" (SQLAgent._get_schema tables).
Proof.
  intros tables.
  destruct (SQLSchemaFacts.get_schema_describes_tables tables) as [_ H].
  destruct (H (SQLAgent.TableInfo "companies" [("company_id", "INTEGER"); ("sector", "TEXT")])
              (or_introl eq_refl)) as [_ Hcol].
  apply (Hcol ("sector", "TEXT")). right. left. reflexivity.
Defined.

End MoreRuns.
